(** * duckddns-app: the update engine, IP discovery and the settings store

    A shallow embedding of [ip_utils.py], [config_manager.py] and of the
    [UpdateThread] class of [duck_dns_updater.py], with the properties of
    the written specification stated and proved over it.

    Conventions.
    - A Python [str] is a [string]; its characters are the code points
      below 256 that [ascii] can hold.
    - A Python exception is the text [str(e)] that the handlers print.
    - Everything the code does to the outside (an HTTP request with its
      answer, a log record, a Qt signal) is an [event]; a computation
      returns the events it produced, in order.
    - What the outside answers (HTTP replies, the clock, disk faults) is
      read from an [env]. *)

From Stdlib Require Import Ascii ZArith DecimalString.
From stdpp Require Import gmap strings list fin_maps.

Set Warnings "-register-all".
Open Scope Z_scope.

(** ** Python primitives *)

Module Py.

(** [str.isspace] on one character, for the code points below 256:
    TAB..CR, FS..US, space, NEL and NBSP. *)
Definition isspace (c : ascii) : bool :=
  let n := N_of_ascii c in
  ((9 <=? n)%N && (n <=? 13)%N) || ((28 <=? n)%N && (n <=? 32)%N)
  || (n =? 133)%N || (n =? 160)%N.

Fixpoint lstrip (s : string) : string :=
  match s with
  | String c s' => if isspace c then lstrip s' else s
  | EmptyString => EmptyString
  end.

Fixpoint rstrip (s : string) : string :=
  match s with
  | String c s' =>
      match rstrip s' with
      | EmptyString => if isspace c then EmptyString else String c EmptyString
      | r => String c r
      end
  | EmptyString => EmptyString
  end.

(** [s.strip()] *)
Definition strip (s : string) : string := rstrip (lstrip s).

Definition newline : ascii := "010"%char.

(** [s.split('\n')]: one more piece than there are newlines. *)
Fixpoint split_lines (s : string) : list string :=
  match s with
  | EmptyString => [EmptyString]
  | String c s' =>
      if Ascii.eqb c newline then EmptyString :: split_lines s'
      else match split_lines s' with
           | l :: ls => String c l :: ls
           | [] => [String c EmptyString]
           end
  end.

(** Truth value of a [str]. *)
Definition truthy (s : string) : bool :=
  match s with EmptyString => false | _ => true end.

(** [if x:] on an [Optional[str]]: the value when it is true, that is
    neither [None] nor ['']. *)
Definition if_truthy (o : option string) : option string :=
  match o with
  | Some s => if truthy s then Some s else None
  | None => None
  end.

(** [str(n)] for an [int]: its decimal digits, with a sign when negative. *)
Definition str (n : Z) : string := NilZero.string_of_int (Z.to_int n).

(** [len(l)] *)
Definition len {A} (l : list A) : Z := Z.of_nat (length l).

(** [l[-k:]] for [k > 0]: the slice starts at [max(len(l) - k, 0)]. *)
Definition slice_last {A} (k : Z) (l : list A) : list A :=
  drop (Z.to_nat (len l - k)) l.

End Py.

Arguments Py.str : simpl never.
Arguments Py.len : simpl never.

(** ** JSON documents, files, the runtime *)

Inductive json : Type :=
  | JNull
  | JBool (b : bool)
  | JInt (n : Z)
  | JStr (s : string)
  | JArr (l : list json)
  | JObj (m : gmap string json).

(** A file on disk, seen through [json.load]: it parses to a document, or
    reading it raises. *)
Inductive file : Type :=
  | Doc (v : json)
  | Garbage (err : string).

Record request : Type := Request {
  url : string;
  params : gmap string string;
  timeout : Z
}.

Inductive reply : Type :=
  | Fault (e : string)
  | Response (status_code : Z) (text : string).

Inductive level : Type := DEBUG | INFO | WARNING | ERROR.

(** The dict every update attempt ends in. *)
Module UpdateResult.
Record t : Type := Build {
  success : bool;
  message : string;
  ipv4 : option string;
  ipv6 : option string;
  timestamp : string
}.
End UpdateResult.

Inductive event : Type :=
  | Http (rq : request) (rp : reply)
  | Log (logger : string) (lv : level) (msg : string)
  | Emit (r : UpdateResult.t).

(** What the outside world answers. [write_fault p = Some (e, rest)]: writing
    the file [p] raises [e] and leaves [rest] on disk. *)
Record env : Type := Env {
  http : request → reply;
  clock : string;
  write_fault : string → option (string * option file)
}.

(** The mutable state: the disk, and the heap of Python list objects
    (a reference is an index into it). *)
Record store : Type := Store {
  fs : gmap string file;
  heap : list (list json)
}.

Inductive outcome (A : Type) : Type :=
  | Ret (a : A)
  | Raise (e : string).
Arguments Ret {A} a.
Arguments Raise {A} e.

Record ran (A : Type) : Type := Ran {
  events : list event;
  final : store;
  value : outcome A
}.
Arguments Ran {A} events final value.
Arguments events {A} r.
Arguments final {A} r.
Arguments value {A} r.

Definition M (A : Type) : Type := env → store → ran A.

Global Instance M_ret : MRet M := λ A a _ st, Ran [] st (Ret a).

Global Instance M_bind : MBind M := λ A B f m E st,
  match m E st with
  | Ran evs st' (Ret a) =>
      match f a E st' with
      | Ran evs' st'' v => Ran (evs ++ evs') st'' v
      end
  | Ran evs st' (Raise e) => Ran evs st' (Raise e)
  end.

Global Instance M_throw : MThrow string M := λ A e _ st, Ran [] st (Raise e).

(** [try: body except Exception as e: handler(e)] *)
Definition try_except {A} (body : M A) (handler : string → M A) : M A :=
  λ E st,
  match body E st with
  | Ran evs st' (Ret a) => Ran evs st' (Ret a)
  | Ran evs st' (Raise e) =>
      match handler e E st' with
      | Ran evs' st'' v => Ran (evs ++ evs') st'' v
      end
  end.

Definition emit_event (ev : event) : M unit := λ _ st, Ran [ev] st (Ret ()).

(** [requests.get(url, params=params, timeout=timeout)] *)
Definition requests_get (u : string) (p : gmap string string) (t : Z)
  : M (Z * string) :=
  λ E st,
  let rq := Request u p t in
  match http E rq with
  | Fault e => Ran [Http rq (Fault e)] st (Raise e)
  | Response c b => Ran [Http rq (Response c b)] st (Ret (c, b))
  end.

(** [datetime.now().isoformat()] *)
Definition now_isoformat : M string := λ E st, Ran [] st (Ret (clock E)).

(** ** ip_utils.py *)

Module ip_utils.

Definition logger : string := "DuckDNS.IPUtils".

Definition ipv4_services : list string :=
  [ "https://api.ipify.org"; "https://ipv4.icanhazip.com";
    "https://v4.ident.me" ].

Definition ipv6_services : list string :=
  [ "https://api6.ipify.org"; "https://ipv6.icanhazip.com";
    "https://v6.ident.me" ].

(** One round of the [for service in services] loop of [get_ipv4]:
    [Some ip] when the body executes [return ip]. *)
Definition get_ipv4_body (service : string) : M (option string) :=
  try_except
    ('(status, text) ← requests_get service ∅ 5;
     if status =? 200 then
       let ip := Py.strip text in
       emit_event (Log logger INFO ("Retrieved IPv4 address: " +:+ ip));;
       mret (Some ip)
     else mret None)
    (λ e, emit_event (Log logger WARNING
            ("Failed to get IPv4 from " +:+ service +:+ ": " +:+ e));;
          mret None).

Fixpoint get_ipv4_loop (services : list string) : M (option string) :=
  match services with
  | [] => mret None
  | service :: rest =>
      r ← get_ipv4_body service;
      match r with
      | Some ip => mret (Some ip)
      | None => get_ipv4_loop rest
      end
  end.

Definition get_ipv4 : M (option string) :=
  r ← get_ipv4_loop ipv4_services;
  match r with
  | Some ip => mret (Some ip)
  | None =>
      emit_event (Log logger ERROR
        "Failed to retrieve IPv4 address from any service");;
      mret None
  end.

Definition get_ipv6_body (service : string) : M (option string) :=
  try_except
    ('(status, text) ← requests_get service ∅ 5;
     if status =? 200 then
       let ip := Py.strip text in
       emit_event (Log logger INFO ("Retrieved IPv6 address: " +:+ ip));;
       mret (Some ip)
     else mret None)
    (λ e, emit_event (Log logger DEBUG
            ("Failed to get IPv6 from " +:+ service +:+ ": " +:+ e));;
          mret None).

Fixpoint get_ipv6_loop (services : list string) : M (option string) :=
  match services with
  | [] => mret None
  | service :: rest =>
      r ← get_ipv6_body service;
      match r with
      | Some ip => mret (Some ip)
      | None => get_ipv6_loop rest
      end
  end.

Definition get_ipv6 : M (option string) :=
  r ← get_ipv6_loop ipv6_services;
  match r with
  | Some ip => mret (Some ip)
  | None =>
      emit_event (Log logger WARNING "No IPv6 address detected");;
      mret None
  end.

End ip_utils.

(** ** config_manager.py *)

Module config_manager.

Definition logger : string := "DuckDNS.ConfigManager".

(** The paths [__init__] computes under the home directory. *)
Record ConfigManager : Type := {
  config_dir : string;
  config_file : string;
  history_file : string
}.

(** [os.path.exists(p)] *)
Definition path_exists (p : string) : M bool :=
  λ _ st, Ran [] st (Ret (bool_decide (is_Some (fs st !! p)))).

(** [with open(p, 'r') as f: json.load(f)] *)
Definition json_load (p : string) : M json :=
  λ _ st,
  match fs st !! p with
  | Some (Doc v) => Ran [] st (Ret v)
  | Some (Garbage e) => Ran [] st (Raise e)
  | None => Ran [] st (Raise ("No such file or directory: " +:+ p))
  end.

(** [with open(p, 'w') as f: json.dump(v, f, indent=2)] *)
Definition json_dump (v : json) (p : string) : M unit :=
  λ E st,
  match write_fault E p with
  | None => Ran [] (Store (<[p := Doc v]> (fs st)) (heap st)) (Ret ())
  | Some (e, Some rest) =>
      Ran [] (Store (<[p := rest]> (fs st)) (heap st)) (Raise e)
  | Some (e, None) => Ran [] (Store (delete p (fs st)) (heap st)) (Raise e)
  end.

(** The list object a reference points to. *)
Definition deref (r : nat) : M (list json) :=
  λ _ st,
  match heap st !! r with
  | Some l => Ran [] st (Ret l)
  | None => Ran [] st (Raise "object is not a list")
  end.

(** A new list object; the result is the reference to it. *)
Definition alloc (l : list json) : M nat :=
  λ _ st, Ran [] (Store (fs st) (heap st ++ [l])) (Ret (length (heap st))).

(** [len(v)] on a parsed document. *)
Definition json_len (v : json) : M Z :=
  match v with
  | JArr l => mret (Py.len l)
  | JObj m => mret (Z.of_nat (size m))
  | JStr s => mret (Z.of_nat (String.length s))
  | _ => mthrow "object has no len()"
  end.

Definition get_default_config : json :=
  JObj (list_to_map
    [ ("domains", JStr ""); ("token", JStr "");
      ("update_ipv4", JBool true); ("use_custom_ipv4", JBool false);
      ("custom_ipv4", JStr ""); ("update_ipv6", JBool false);
      ("custom_ipv6", JStr ""); ("auto_update", JBool false);
      ("update_interval", JInt 30); ("minimize_to_tray", JBool true);
      ("start_minimized", JBool false) ]).

Definition load_config (self : ConfigManager) : M json :=
  ex ← path_exists (config_file self);
  if ex : bool then
    try_except
      (config ← json_load (config_file self);
       emit_event (Log logger INFO "Configuration loaded successfully");;
       mret config)
      (λ e, emit_event (Log logger ERROR
              ("Error loading configuration: " +:+ e));;
            mret get_default_config)
  else
    emit_event (Log logger INFO
      "No configuration file found, using defaults");;
    mret get_default_config.

Definition save_config (self : ConfigManager) (config : json) : M bool :=
  try_except
    (json_dump config (config_file self);;
     emit_event (Log logger INFO "Configuration saved successfully");;
     mret true)
    (λ e, emit_event (Log logger ERROR
            ("Error saving configuration: " +:+ e));;
          mret false).

Definition load_history (self : ConfigManager) : M json :=
  ex ← path_exists (history_file self);
  if ex : bool then
    try_except
      (history ← json_load (history_file self);
       n ← json_len history;
       emit_event (Log logger INFO
         ("Loaded " +:+ Py.str n +:+ " history entries"));;
       mret history)
      (λ e, emit_event (Log logger ERROR
              ("Error loading history: " +:+ e));;
            mret (JArr []))
  else
    emit_event (Log logger INFO "No history file found");;
    mret (JArr []).

(** [history] is the reference the caller passes; the assignment
    [history = history[-1000:]] binds the local name to a new list
    object. *)
Definition save_history (self : ConfigManager) (history : nat) : M bool :=
  try_except
    (l ← deref history;
     history ← (if 1000 <? Py.len l
                then alloc (Py.slice_last 1000 l)
                else mret history);
     l ← deref history;
     json_dump (JArr l) (history_file self);;
     emit_event (Log logger INFO
       ("Saved " +:+ Py.str (Py.len l) +:+ " history entries"));;
     mret true)
    (λ e, emit_event (Log logger ERROR
            ("Error saving history: " +:+ e));;
          mret false).

End config_manager.

(** ** duck_dns_updater.py: class UpdateThread *)

Module duck_dns_updater.

Definition logger : string := "DuckDNS Updater".

Definition update_url : string := "https://www.duckdns.org/update".

Record UpdateThread : Type := {
  domains : string;
  token : string;
  update_ipv4 : bool;
  update_ipv6 : bool;
  ipv4 : option string;
  ipv6 : option string
}.

(** [lines[i]] *)
Definition index (lines : list string) (i : nat) : M string :=
  match lines !! i with
  | Some l => mret l
  | None => mthrow "list index out of range"
  end.

(** [lines[i] if len(lines) > i and lines[i] and lines[i] != 'NOCHANGE'
    else None] *)
Definition address_line (lines : list string) (i : nat)
  : M (option string) :=
  if Z.of_nat i <? Py.len lines then
    a ← index lines i;
    if Py.truthy a then
      b ← index lines i;
      if negb (String.eqb b "NOCHANGE") then
        c ← index lines i; mret (Some c)
      else mret None
    else mret None
  else mret None.

(** [update_duckdns], first half: the [params] dict as it stands when
    the [try] statement is entered. *)
Definition ip_settings (self : UpdateThread) : M (gmap string string) :=
  let params : gmap string string :=
    <["verbose" := "true"]>
      (<["token" := token self]> (<["domains" := domains self]> ∅)) in
  params ←
    (if update_ipv4 self then
       match Py.if_truthy (ipv4 self) with
       | Some a => mret (<["ip" := a]> params)
       | None =>
           detected_ipv4 ← ip_utils.get_ipv4;
           match Py.if_truthy detected_ipv4 with
           | Some a => mret (<["ip" := a]> params)
           | None => mret params
           end
       end
     else mret params);
  mret (if update_ipv6 self then
          match Py.if_truthy (ipv6 self) with
          | Some a => <["ipv6" := a]> params
          | None => params
          end
        else params).

(** [update_duckdns], second half: the [try] statement. *)
Definition provider_call (params : gmap string string)
  : M UpdateResult.t :=
  try_except
    ('(status, text) ← requests_get update_url params 10;
     if status =? 200 then
       let lines := Py.split_lines (Py.strip text) in
       first ← index lines 0;
       if String.eqb first "OK" then
         ipv4 ← address_line lines 1;
         ipv6 ← address_line lines 2;
         update_status ←
           (if 3 <? Py.len lines then index lines 3
            else mret "UPDATED");
         ts ← now_isoformat;
         mret (UpdateResult.Build true
                 ("Update successful: " +:+ update_status) ipv4 ipv6 ts)
       else
         ts ← now_isoformat;
         mret (UpdateResult.Build false "Update failed: Invalid response"
                 None None ts)
     else
       ts ← now_isoformat;
       mret (UpdateResult.Build false
               ("Update failed: HTTP " +:+ Py.str status) None None ts))
    (λ e, emit_event (Log logger ERROR ("Network error: " +:+ e));;
          ts ← now_isoformat;
          mret (UpdateResult.Build false ("Network error: " +:+ e)
                  None None ts)).

Definition update_duckdns (self : UpdateThread) : M UpdateResult.t :=
  params ← ip_settings self;
  provider_call params.

Definition run (self : UpdateThread) : M unit :=
  try_except
    (result ← update_duckdns self;
     emit_event (Emit result))
    (λ e, emit_event (Log logger ERROR ("Update failed: " +:+ e));;
          ts ← now_isoformat;
          emit_event (Emit (UpdateResult.Build false
                              ("Update failed: " +:+ e) None None ts))).

End duck_dns_updater.

(** ** duck_dns_updater.py: class MainWindow, the parts that decide *)

Module main_window.
Import config_manager.

(** Truth value of a parsed value: None, False, 0 and the empty string,
    list and dict are false. *)
Definition truthy (v : json) : bool :=
  match v with
  | JNull => false
  | JBool b => b
  | JInt n => negb (n =? 0)
  | JStr s => Py.truthy s
  | JArr l => match l with [] => false | _ => true end
  | JObj m => negb (Nat.eqb (size m) 0)
  end.

(** [config.get(key, default)]; only a dict has [get]. *)
Definition get (config : json) (key : string) (d : json) : M json :=
  match config with
  | JObj m => mret (default d (m !! key))
  | _ => mthrow "object has no attribute 'get'"
  end.

(** The arguments [update_dns] gives to [UpdateThread], as they are passed;
    [JNull] is None. *)
Record thread_args : Type := ThreadArgs {
  arg_domains : json;
  arg_token : json;
  arg_update_ipv4 : json;
  arg_update_ipv6 : json;
  arg_ipv4 : json;
  arg_ipv6 : json
}.

(** What [update_dns] does: the warning box and no thread, or a thread
    started with these arguments and the information box. *)
Inductive launched : Type :=
  | ConfigurationMissing
  | UpdateStarted (args : thread_args).

Definition update_dns (config : json) : M launched :=
  domains ← get config "domains" (JStr "");
  token ← get config "token" (JStr "");
  if negb (truthy domains) || negb (truthy token) then
    mret ConfigurationMissing
  else
    update_ipv4 ← get config "update_ipv4" (JBool true);
    use_custom_ipv4 ← get config "use_custom_ipv4" (JBool false);
    custom_ipv4 ← get config "custom_ipv4" (JStr "");
    update_ipv6 ← get config "update_ipv6" (JBool false);
    custom_ipv6 ← get config "custom_ipv6" (JStr "");
    let ipv4 := if truthy use_custom_ipv4 && truthy custom_ipv4
                then custom_ipv4 else JNull in
    let ipv6 := if truthy update_ipv6 && truthy custom_ipv6
                then custom_ipv6 else JNull in
    mret (UpdateStarted
            (ThreadArgs domains token update_ipv4 update_ipv6 ipv4 ipv6)).

(** The values [save_config] reads from the widgets of the configuration
    tab. *)
Record widgets : Type := {
  domains_input : string;
  token_input : string;
  update_ipv4_check : bool;
  use_custom_ipv4_check : bool;
  custom_ipv4_input : string;
  update_ipv6_check : bool;
  custom_ipv6_input : string;
  auto_update_check : bool;
  update_interval_input : Z;
  minimize_to_tray_check : bool;
  start_minimized_check : bool
}.

(** The dict [save_config] builds from them and keeps as [self.config]. *)
Definition config_of_widgets (w : widgets) : json :=
  JObj (list_to_map
    [ ("domains", JStr (Py.strip (domains_input w)));
      ("token", JStr (Py.strip (token_input w)));
      ("update_ipv4", JBool (update_ipv4_check w));
      ("use_custom_ipv4", JBool (use_custom_ipv4_check w));
      ("custom_ipv4", JStr (Py.strip (custom_ipv4_input w)));
      ("update_ipv6", JBool (update_ipv6_check w));
      ("custom_ipv6", JStr (Py.strip (custom_ipv6_input w)));
      ("auto_update", JBool (auto_update_check w));
      ("update_interval", JInt (update_interval_input w));
      ("minimize_to_tray", JBool (minimize_to_tray_check w));
      ("start_minimized", JBool (start_minimized_check w)) ]).

(** The dict [update_duckdns] returns and [run] emits, as the slot
    receives it. *)
Definition result_dict (r : UpdateResult.t) : json :=
  let address o := match o with Some a => JStr a | None => JNull end in
  JObj (list_to_map
    [ ("success", JBool (UpdateResult.success r));
      ("message", JStr (UpdateResult.message r));
      ("ipv4", address (UpdateResult.ipv4 r));
      ("ipv6", address (UpdateResult.ipv6 r));
      ("timestamp", JStr (UpdateResult.timestamp r)) ]).

(** [l.append(x)]: the list object is changed in place. *)
Definition append (r : nat) (x : json) : M unit :=
  λ _ st,
  match heap st !! r with
  | Some l => Ran [] (Store (fs st) (<[r := l ++ [x]]> (heap st))) (Ret ())
  | None => Ran [] st (Raise "object has no attribute 'append'")
  end.

(** [on_update_complete], its first two statements: the history is
    extended and saved, and the outcome of the save is not looked at. The
    statements after them render the result and are not modelled.
    [update_history] is the reference held in [self.update_history]. *)
Definition on_update_complete (cm : ConfigManager) (update_history : nat)
    (result : json) : M unit :=
  append update_history result;;
  _ ← save_history cm update_history;
  mret ().

(** [clear_history] once the question box is answered: on Yes
    [self.update_history] becomes a new empty list, which is saved. The
    result is the reference then held in [self.update_history]. *)
Definition clear_history (cm : ConfigManager) (update_history : nat)
    (yes : bool) : M nat :=
  if yes then
    update_history ← alloc [];
    _ ← save_history cm update_history;
    mret update_history
  else mret update_history.

End main_window.

(** ** Observations on a run *)

(** All HTTP exchanges among the events, in order. *)
Definition exchanges (evs : list event) : list (request * reply) :=
  omap (λ ev, match ev with Http rq rp => Some (rq, rp) | _ => None end) evs.

(** The HTTP exchanges with the URL [u] among the events, in order. *)
Definition exchanges_with (u : string) (evs : list event)
  : list (request * reply) :=
  omap (λ ev, match ev with
              | Http rq rp => if String.eqb (url rq) u then Some (rq, rp)
                              else None
              | _ => None
              end) evs.

(** The log records of one level among the events, in order. *)
Definition logged (lv : level) (evs : list event) : list string :=
  omap (λ ev, match ev, lv with
              | Log _ DEBUG m, DEBUG | Log _ INFO m, INFO
              | Log _ WARNING m, WARNING | Log _ ERROR m, ERROR => Some m
              | _, _ => None
              end) evs.

(** The results sent through the [update_complete] signal, in order. *)
Definition emitted (evs : list event) : list UpdateResult.t :=
  omap (λ ev, match ev with Emit r => Some r | _ => None end) evs.

(** The request [get_ipv4] and [get_ipv6] send to a service. *)
Definition echo_request (service : string) : request := Request service ∅ 5.

(** What the outside answers to the echo request for a service. *)
Definition echo_exchange (E : env) (service : string) : request * reply :=
  (echo_request service, http E (echo_request service)).

(** The warning [get_ipv4] logs when the request to a service raises. *)
Definition ipv4_warning (service e : string) : string :=
  "Failed to get IPv4 from " +:+ service +:+ ": " +:+ e.

(** The discovery contract in the words of the specification: the trimmed
    body of the first service, in order, that answers successfully with a
    body that is not empty once trimmed. *)
Fixpoint first_nonempty_answer (E : env) (services : list string)
  : option string :=
  match services with
  | [] => None
  | s :: rest =>
      match http E (echo_request s) with
      | Response status body =>
          if (status =? 200) && Py.truthy (Py.strip body)
          then Some (Py.strip body)
          else first_nonempty_answer E rest
      | Fault _ => first_nonempty_answer E rest
      end
  end.

(** The trimmed body of the first service, in order, that answers with
    status 200, whatever the body. *)
Fixpoint first_answer (E : env) (services : list string) : option string :=
  match services with
  | [] => None
  | s :: rest =>
      match http E (echo_request s) with
      | Response status body =>
          if status =? 200 then Some (Py.strip body) else first_answer E rest
      | Fault _ => first_answer E rest
      end
  end.

(** The fields of the settings document, in the order of the data model. *)
Definition settings_fields : list string :=
  [ "domains"; "token"; "update_ipv4"; "use_custom_ipv4"; "custom_ipv4";
    "update_ipv6"; "custom_ipv6"; "auto_update"; "update_interval";
    "minimize_to_tray"; "start_minimized" ].

(** A document is fully populated when it is an object that has every
    field of the data model. *)
Definition fully_populated (v : json) : bool :=
  match v with
  | JObj m => forallb (λ k, bool_decide (is_Some (m !! k))) settings_fields
  | _ => false
  end.

(** The answers of the provider among the events, in order. *)
Definition provider_replies (evs : list event) : list reply :=
  (exchanges_with duck_dns_updater.update_url evs).*2.

(** What [duck_dns_updater.provider_call] makes of each answer of the provider. *)
Definition reads (rp : reply) (ts : string) (res : UpdateResult.t) : Prop :=
  match rp with
  | Fault e =>
      res = UpdateResult.Build false ("Network error: " +:+ e) None None ts
  | Response c body =>
      if c =? 200 then
        let lines := Py.split_lines (Py.strip body) in
        UpdateResult.timestamp res = ts ∧
        (lines !! 0%nat = Some "OK" →
           UpdateResult.success res = true ∧
           (∀ a, UpdateResult.ipv4 res = Some a ↔
                 lines !! 1%nat = Some a ∧ a ≠ "" ∧ a ≠ "NOCHANGE") ∧
           (∀ a, UpdateResult.ipv6 res = Some a ↔
                 lines !! 2%nat = Some a ∧ a ≠ "" ∧ a ≠ "NOCHANGE") ∧
           UpdateResult.message res =
             "Update successful: " +:+ default "UPDATED" (lines !! 3%nat)) ∧
        (lines !! 0%nat ≠ Some "OK" →
           res = UpdateResult.Build false "Update failed: Invalid response"
                   None None ts)
      else
        res = UpdateResult.Build false
                ("Update failed: HTTP " +:+ Py.str c) None None ts
  end.

(** The debug record [get_ipv6] logs when the request to a service
    raises. *)
Definition ipv6_debug (service e : string) : string :=
  "Failed to get IPv6 from " +:+ service +:+ ": " +:+ e.

(** The parameters [update_duckdns] may send. *)
Definition request_keys : list string :=
  [ "domains"; "token"; "verbose"; "ip"; "ipv6" ].

(** A dict with one more key when there is a value for it. *)
Definition with_param (k : string) (o : option string)
    (m : gmap string string) : gmap string string :=
  match o with Some a => <[k := a]> m | None => m end.

(** The parameters of the request to the provider in closed form: the three
    fixed ones, [ip] for the override or else the discovered address, and
    [ipv6] for the override. *)
Definition sent_params (self : duck_dns_updater.UpdateThread) (E : env)
  : gmap string string :=
  with_param "ipv6"
    (if duck_dns_updater.update_ipv6 self
     then Py.if_truthy (duck_dns_updater.ipv6 self) else None)
    (with_param "ip"
       (if duck_dns_updater.update_ipv4 self then
          match Py.if_truthy (duck_dns_updater.ipv4 self) with
          | Some a => Some a
          | None => Py.if_truthy (first_answer E ip_utils.ipv4_services)
          end
        else None)
       (<["verbose" := "true"]>
          (<["token" := duck_dns_updater.token self]>
             (<["domains" := duck_dns_updater.domains self]> ∅)))).

(** The request to the provider. *)
Definition update_request (self : duck_dns_updater.UpdateThread) (E : env)
  : request :=
  Request duck_dns_updater.update_url (sent_params self E) 10.

(** The slot [on_update_complete] called once for each result, in order. *)
Fixpoint deliver (cm : config_manager.ConfigManager) (update_history : nat)
    (results : list json) : M unit :=
  match results with
  | [] => mret ()
  | r :: rest =>
      main_window.on_update_complete cm update_history r;;
      deliver cm update_history rest
  end.

(** The thread arguments seen with the types [UpdateThread] is modelled
    with: strings, booleans, and None or a string for the overrides. *)
Definition thread_of (a : main_window.thread_args)
  : option duck_dns_updater.UpdateThread :=
  let override v := match v with
                    | JNull => Some None
                    | JStr s => Some (Some s)
                    | _ => None
                    end in
  match main_window.arg_domains a, main_window.arg_token a,
        main_window.arg_update_ipv4 a, main_window.arg_update_ipv6 a,
        override (main_window.arg_ipv4 a), override (main_window.arg_ipv6 a)
  with
  | JStr d, JStr t, JBool u4, JBool u6, Some o4, Some o6 =>
      Some {| duck_dns_updater.domains := d;
              duck_dns_updater.token := t;
              duck_dns_updater.update_ipv4 := u4;
              duck_dns_updater.update_ipv6 := u6;
              duck_dns_updater.ipv4 := o4;
              duck_dns_updater.ipv6 := o6 |}
  | _, _, _, _, _, _ => None
  end.

(** ** Concrete runs *)

Module sample.
Import duck_dns_updater config_manager.

Definition empty_store : store := Store ∅ [].

Definition no_write_fault : string → option (string * option file) :=
  λ _, None.

(** Every echo service is down; the provider gives one fixed answer. *)
Definition provider_says (rp : reply) : env :=
  Env (λ rq, if String.eqb (url rq) update_url then rp else Fault "timed out")
      "2024-01-01T00:00:00" no_write_fault.

(** Nothing answers. *)
Definition offline : env := provider_says (Fault "unreachable").

(** Everything answers 503. *)
Definition refusing : env :=
  Env (λ _, Response 503 "Service Unavailable")
      "2024-01-01T00:00:00" no_write_fault.

(** The first echo service answers 200 with a blank body, the others
    with an address. *)
Definition blank_first : env :=
  Env (λ rq, if String.eqb (url rq) "https://api.ipify.org"
             then Response 200 (String Py.newline EmptyString)
             else Response 200 "1.2.3.4")
      "2024-01-01T00:00:00" no_write_fault.

Definition thread : UpdateThread :=
  {| domains := "myhost"; token := "secret"; update_ipv4 := true;
     update_ipv6 := true; ipv4 := Some "9.9.9.9"; ipv6 := None |}.

(** A thread without overrides: IPv4 is discovered, IPv6 is not sent. *)
Definition plain_thread : UpdateThread :=
  {| domains := "myhost"; token := "secret"; update_ipv4 := true;
     update_ipv6 := false; ipv4 := None; ipv6 := None |}.

Definition manager : ConfigManager :=
  {| config_dir := "/home/u/.duckdns";
     config_file := "/home/u/.duckdns/config.json";
     history_file := "/home/u/.duckdns/history.json" |}.

(** A settings file that parses and has two of the eleven fields. *)
Definition partial_doc : json :=
  JObj (list_to_map [ ("domains", JStr "myhost"); ("token", JStr "secret") ]).

Definition partial_store : store :=
  Store {[ config_file manager := Doc partial_doc ]} [].

Definition corrupt_store : store :=
  Store {[ config_file manager := Garbage "Expecting value" ]} [].

(** The configuration tab with a custom IPv4 typed in but not switched
    on, and a custom IPv6 with IPv6 updates on. *)
Definition tab : main_window.widgets :=
  {| main_window.domains_input := " myhost ";
     main_window.token_input := "secret";
     main_window.update_ipv4_check := true;
     main_window.use_custom_ipv4_check := false;
     main_window.custom_ipv4_input := "9.9.9.9";
     main_window.update_ipv6_check := true;
     main_window.custom_ipv6_input := "::1";
     main_window.auto_update_check := false;
     main_window.update_interval_input := 30;
     main_window.minimize_to_tray_check := true;
     main_window.start_minimized_check := false |}.

(** The thread [update_dns] starts for it. *)
Definition tab_thread : UpdateThread :=
  {| domains := "myhost"; token := "secret"; update_ipv4 := true;
     update_ipv6 := true; ipv4 := None; ipv6 := Some "::1" |}.

Definition tab_args : main_window.thread_args :=
  main_window.ThreadArgs (JStr "myhost") (JStr "secret") (JBool true)
    (JBool true) JNull (JStr "::1").

(** A history file that holds an object, not a list. *)
Definition object_history : store :=
  Store {[ history_file manager := Doc partial_doc ]} [].

(** A history of 1002 entries, numbered from 0, as object 0 of the heap. *)
Definition long_history : list json :=
  (λ n, JInt (Z.of_nat n)) <$> seq 0 1002.

Definition history_store : store := Store ∅ [long_history].

End sample.

(** ** Running a computation *)

Ltac m_unfold :=
  unfold mbind, M_bind, mret, M_ret, mthrow, M_throw, try_except,
    emit_event, requests_get, now_isoformat.

Ltac m_run := m_unfold; cbn.

Lemma bind_run {A B} (m : M A) (f : A → M B) E st evs st' a :
  m E st = Ran evs st' (Ret a) →
  (m ≫= f) E st =
    Ran (evs ++ events (f a E st')) (final (f a E st')) (value (f a E st')).
Proof.
  intros Hm. unfold mbind, M_bind. rewrite Hm. by destruct (f a E st').
Qed.

Lemma exchanges_with_app u evs1 evs2 :
  exchanges_with u (evs1 ++ evs2) =
  exchanges_with u evs1 ++ exchanges_with u evs2.
Proof. apply omap_app. Qed.

Lemma exchanges_app evs1 evs2 :
  exchanges (evs1 ++ evs2) = exchanges evs1 ++ exchanges evs2.
Proof. apply omap_app. Qed.

Lemma logged_app lv evs1 evs2 :
  logged lv (evs1 ++ evs2) = logged lv evs1 ++ logged lv evs2.
Proof. apply omap_app. Qed.

Lemma exchanges_http rq rp evs :
  exchanges (Http rq rp :: evs) = (rq, rp) :: exchanges evs.
Proof. reflexivity. Qed.

Lemma exchanges_log lg lv m evs : exchanges (Log lg lv m :: evs) = exchanges evs.
Proof. reflexivity. Qed.

Lemma exchanges_with_http u rq rp evs :
  exchanges_with u (Http rq rp :: evs) =
  if String.eqb (url rq) u then (rq, rp) :: exchanges_with u evs
  else exchanges_with u evs.
Proof. unfold exchanges_with. cbn. by destruct (String.eqb _ _). Qed.

Lemma exchanges_with_log u lg lv m evs :
  exchanges_with u (Log lg lv m :: evs) = exchanges_with u evs.
Proof. reflexivity. Qed.

Lemma exchanges_with_nil u : exchanges_with u [] = [].
Proof. reflexivity. Qed.

Lemma emitted_app evs1 evs2 : emitted (evs1 ++ evs2) = emitted evs1 ++ emitted evs2.
Proof. apply omap_app. Qed.

Lemma emitted_http rq rp evs : emitted (Http rq rp :: evs) = emitted evs.
Proof. reflexivity. Qed.

Lemma emitted_log lg lv m evs : emitted (Log lg lv m :: evs) = emitted evs.
Proof. reflexivity. Qed.

Lemma emitted_emit r evs : emitted (Emit r :: evs) = r :: emitted evs.
Proof. reflexivity. Qed.

Lemma emitted_nil : emitted [] = [].
Proof. reflexivity. Qed.

Lemma logged_http lv rq rp evs : logged lv (Http rq rp :: evs) = logged lv evs.
Proof. reflexivity. Qed.

Lemma logged_nil lv : logged lv [] = [].
Proof. reflexivity. Qed.

Lemma logged_warning_at lv lg m evs :
  logged lv (Log lg WARNING m :: evs) =
  match lv with WARNING => m :: logged lv evs | _ => logged lv evs end.
Proof. by destruct lv. Qed.

Lemma logged_info_at lv lg m evs :
  logged lv (Log lg INFO m :: evs) =
  match lv with INFO => m :: logged lv evs | _ => logged lv evs end.
Proof. by destruct lv. Qed.

Lemma logged_error_at lv lg m evs :
  logged lv (Log lg ERROR m :: evs) =
  match lv with ERROR => m :: logged lv evs | _ => logged lv evs end.
Proof. by destruct lv. Qed.

(** The exchanges with one URL are picked from all exchanges. *)
Lemma exchanges_with_pick u evs :
  exchanges_with u evs =
  omap (λ x, if String.eqb (url x.1) u then Some x else None) (exchanges evs).
Proof.
  induction evs as [|[rq rp|lg lv m|r] evs IH]; [done| |done|done].
  rewrite exchanges_with_http, exchanges_http. cbn.
  destruct (String.eqb _ _); by rewrite IH.
Qed.

Lemma exchanges_with_single u evs rq rp :
  exchanges evs = [(rq, rp)] →
  exchanges_with u evs = if String.eqb (url rq) u then [(rq, rp)] else [].
Proof.
  intros Hx. rewrite exchanges_with_pick, Hx. unfold omap, list_omap, fst.
  by destruct (String.eqb _ _).
Qed.

Create Rewrite HintDb obs.
#[local] Hint Rewrite exchanges_http exchanges_log exchanges_with_http
  exchanges_with_log exchanges_with_nil logged_http logged_nil
  logged_warning_at logged_info_at logged_error_at
  exchanges_app exchanges_with_app logged_app
  emitted_app emitted_http emitted_log emitted_emit emitted_nil : obs.

(** ** Facts about the Python primitives *)

Lemma split_lines_nonempty s : ∃ l ls, Py.split_lines s = l :: ls.
Proof.
  induction s as [|c s [l [ls IH]]]; simpl; [by eauto|].
  destruct (Ascii.eqb c Py.newline); [by eauto|].
  rewrite IH. by eauto.
Qed.

Lemma truthy_ne s : Py.truthy s = true ↔ s ≠ "".
Proof. destruct s; simpl; split; congruence. Qed.

Lemma if_truthy_Some o a :
  Py.if_truthy o = Some a ↔ o = Some a ∧ a ≠ "".
Proof.
  destruct o as [[|c s]|]; simpl; split; try congruence;
    try (intros [? ?]; congruence).
  intros [= <-]. done.
Qed.

Lemma if_truthy_None o : Py.if_truthy o = None ↔ o = None ∨ o = Some "".
Proof.
  destruct o as [[|c s]|]; simpl; split; try congruence; eauto;
    intros [?|?]; congruence.
Qed.

Lemma slice_last_length {A} (l : list A) :
  length (Py.slice_last 1000 l) = (length l `min` 1000)%nat.
Proof. unfold Py.slice_last, Py.len. rewrite length_drop. lia. Qed.

(** The items dropped in front, then the slice, make up the list. *)
Lemma slice_last_suffix {A} k (l : list A) :
  take (Z.to_nat (Py.len l - k)) l ++ Py.slice_last k l = l.
Proof. apply take_drop. Qed.

(** ** Facts about IP discovery *)

Section discovery.
Import ip_utils.

Lemma get_ipv4_body_run service E st :
  get_ipv4_body service E st =
  match http E (echo_request service) with
  | Fault e =>
      Ran [Http (echo_request service) (Fault e);
           Log logger WARNING
             ("Failed to get IPv4 from " +:+ service +:+ ": " +:+ e)]
          st (Ret None)
  | Response c b =>
      if c =? 200 then
        Ran [Http (echo_request service) (Response c b);
             Log logger INFO ("Retrieved IPv4 address: " +:+ Py.strip b)]
            st (Ret (Some (Py.strip b)))
      else Ran [Http (echo_request service) (Response c b)] st (Ret None)
  end.
Proof.
  unfold get_ipv4_body, echo_request. m_run.
  destruct (http E _) as [e|c b]; cbn; [done|].
  destruct (c =? 200); done.
Qed.

(** The loop keeps the store, never raises, returns the first answer
    with status 200, and talks to a prefix of the services, in order. *)
Lemma get_ipv4_loop_run services E st :
  let r := get_ipv4_loop services E st in
  final r = st ∧ value r = Ret (first_answer E services) ∧
  (∃ n, exchanges (events r) = echo_exchange E <$> take n services) ∧
  (∀ u, u ∉ services → exchanges_with u (events r) = []) ∧
  logged ERROR (events r) = [].
Proof.
  induction services as [|s rest IH]; cbn -[exchanges_with exchanges logged].
  { repeat split; try done. by exists 0%nat. }
  pose proof (get_ipv4_body_run s E st) as Hb.
  destruct IH as (Hf & Hv & [n Hn] & Hu & He).
  assert (∀ u, u ∉ s :: rest →
            String.eqb (url (echo_request s)) u = false ∧ u ∉ rest) as Hout.
  { intros u [Hne Hu']%not_elem_of_cons. split; [|done].
    cbn. by destruct (String.eqb_spec s u). }
  destruct (http E (echo_request s)) as [e|c b] eqn:Hs;
    [|destruct (c =? 200) eqn:Hc];
    rewrite (bind_run _ _ _ _ _ _ _ Hb);
    cbn -[exchanges_with exchanges logged]; autorewrite with obs;
    repeat split; try done.
  - exists (S n). cbn. rewrite Hn. unfold echo_exchange at 2. by rewrite Hs.
  - intros u [Heq Hu']%Hout. autorewrite with obs. rewrite Heq.
    autorewrite with obs. by apply Hu.
  - exists 1%nat. cbn. unfold echo_exchange. by rewrite Hs, take_0.
  - intros u [Heq Hu']%Hout. autorewrite with obs. by rewrite Heq.
  - exists (S n). cbn. rewrite Hn. unfold echo_exchange at 2. by rewrite Hs.
  - intros u [Heq Hu']%Hout. autorewrite with obs. rewrite Heq.
    autorewrite with obs. by apply Hu.
Qed.

(** A service that raises while the loop has not returned yet leaves its
    warning in the log. *)
Lemma get_ipv4_loop_warns services E st i s e :
  services !! i = Some s →
  first_answer E (take i services) = None →
  http E (echo_request s) = Fault e →
  ipv4_warning s e ∈ logged WARNING (events (get_ipv4_loop services E st)).
Proof.
  revert i. induction services as [|s' rest IH]; intros i Hi Hnone Hs;
    [done|].
  cbn -[logged].
  pose proof (get_ipv4_body_run s' E st) as Hb.
  destruct i as [|i]; cbn in Hi, Hnone.
  - injection Hi as ->. rewrite Hs in Hb.
    rewrite (bind_run _ _ _ _ _ _ _ Hb). cbn -[logged].
    autorewrite with obs. apply elem_of_cons. by left.
  - destruct (http E (echo_request s')) as [e'|c b] eqn:Hs';
      [|destruct (c =? 200) eqn:Hc; [done|]];
      rewrite (bind_run _ _ _ _ _ _ _ Hb); cbn -[logged];
      autorewrite with obs; [apply elem_of_cons; right|]; by apply (IH i).
Qed.

Lemma get_ipv4_run E st :
  let r := get_ipv4 E st in
  final r = st ∧ value r = Ret (first_answer E ipv4_services) ∧
  (∃ n, exchanges (events r) = echo_exchange E <$> take n ipv4_services) ∧
  (∀ u, u ∉ ipv4_services → exchanges_with u (events r) = []) ∧
  logged ERROR (events r) =
    match first_answer E ipv4_services with
    | Some _ => []
    | None => ["Failed to retrieve IPv4 address from any service"]
    end.
Proof.
  unfold get_ipv4. generalize ipv4_services. intros services.
  destruct (get_ipv4_loop_run services E st)
    as (Hf & Hv & [n Hn] & Hu & He).
  destruct (get_ipv4_loop services E st) as [evs st' v] eqn:Hl.
  cbn [events final value] in Hf, Hv, Hn, Hu, He. subst st' v.
  rewrite (bind_run _ _ _ _ _ _ _ Hl).
  destruct (first_answer E services) as [ip|];
    cbn [events final value]; m_unfold; cbn [events final value];
    autorewrite with obs; rewrite ?app_nil_r, ?He; repeat split; eauto.
  all: intros u Hu'; autorewrite with obs; rewrite ?app_nil_r; by apply Hu.
Qed.

(** Discovery sends nothing through the signal. *)
Lemma get_ipv4_loop_quiet services E st :
  emitted (events (get_ipv4_loop services E st)) = [].
Proof.
  induction services as [|s rest IH]; [done|]. cbn -[emitted].
  pose proof (get_ipv4_body_run s E st) as Hb.
  destruct (http E (echo_request s)) as [e|c b];
    [|destruct (c =? 200)];
    rewrite (bind_run _ _ _ _ _ _ _ Hb); cbn -[emitted];
    autorewrite with obs; done.
Qed.

Lemma get_ipv4_quiet E st : emitted (events (get_ipv4 E st)) = [].
Proof.
  unfold get_ipv4. generalize ipv4_services. intros services.
  pose proof (get_ipv4_loop_quiet services E st) as Hq.
  destruct (get_ipv4_loop_run services E st) as (Hf & Hv & _).
  destruct (get_ipv4_loop services E st) as [evs st' v] eqn:Hl.
  cbn [events final value] in Hf, Hv, Hq. subst st' v.
  rewrite (bind_run _ _ _ _ _ _ _ Hl).
  destruct (first_answer E services); cbn [events]; m_unfold;
    cbn [events]; autorewrite with obs; by rewrite Hq.
Qed.

End discovery.

(** ** Facts about the update engine *)

Section engine.
Import duck_dns_updater.

Lemma address_line_run lines i E st :
  ∃ o, address_line lines i E st = Ran [] st (Ret o) ∧
       ∀ a, o = Some a ↔ lines !! i = Some a ∧ a ≠ "" ∧ a ≠ "NOCHANGE".
Proof.
  unfold address_line, Py.len. destruct (Z.ltb_spec (Z.of_nat i) (Z.of_nat (length lines))) as [Hlen|Hlen].
  - apply Nat2Z.inj_lt, lookup_lt_is_Some_2 in Hlen as [l Hl].
    unfold index. rewrite Hl. m_run.
    destruct (Py.truthy l) eqn:Ht; cbn.
    + destruct (String.eqb_spec l "NOCHANGE") as [->|Hne]; cbn.
      * exists None. split; [done|]. intros a. split; [done|].
        intros ([= <-] & _ & ?). done.
      * exists (Some l). split; [done|]. intros a. split.
        -- intros [= <-]. by apply truthy_ne in Ht.
        -- by intros ([= <-] & _).
    + exists None. split; [done|]. intros a. split; [done|].
      intros ([= <-] & Hne & _). apply truthy_ne in Hne. congruence.
  - exists None. split; [done|]. intros a. split; [done|].
    intros (Hl & _). apply lookup_lt_Some in Hl. lia.
Qed.

(** The status token of the success message. *)
Lemma status_line_run (lines : list string) E st :
  (if 3 <? Py.len lines then index lines 3 else mret "UPDATED") E st =
  Ran [] st (Ret (default "UPDATED" (lines !! 3%nat))).
Proof.
  unfold Py.len. destruct (Z.ltb_spec 3 (Z.of_nat (length lines))) as [Hlen|Hlen].
  - assert (3 < length lines)%nat as [l Hl]%lookup_lt_is_Some_2 by lia.
    unfold index. by rewrite Hl.
  - rewrite lookup_ge_None_2 by lia. done.
Qed.

Lemma provider_call_run p E st :
  let rq := Request update_url p 10 in
  let r := provider_call p E st in
  final r = st ∧
  events r =
    Http rq (http E rq) ::
    match http E rq with
    | Fault e => [Log logger ERROR ("Network error: " +:+ e)]
    | Response _ _ => []
    end ∧
  ∃ res, value r = Ret res ∧ reads (http E rq) (clock E) res.
Proof.
  unfold provider_call, reads. m_run.
  destruct (http E _) as [e|c body]; cbn; [by eauto|].
  destruct (c =? 200) eqn:Hc; cbn; [|by eauto].
  destruct (split_lines_nonempty (Py.strip body)) as (l & ls & Hl).
  rewrite Hl. cbn.
  destruct (String.eqb_spec l "OK") as [->|Hne]; cbn.
  - destruct (address_line_run ("OK" :: ls) 1 E st) as (o4 & H4 & Ho4).
    destruct (address_line_run ("OK" :: ls) 2 E st) as (o6 & H6 & Ho6).
    rewrite H4. cbn. rewrite H6. cbn.
    pose proof (status_line_run ("OK" :: ls) E st) as Hst.
    unfold mret, M_ret in Hst. cbn in Hst. rewrite Hst. cbn.
    repeat split; try done. eexists. split; [done|]. cbn.
    split; [done|]. split; [|by intros []].
    intros _. split; [done|]. split; [exact Ho4|]. split; [exact Ho6|done].
  - repeat split; try done. eexists. split; [done|]. cbn.
    split; [done|]. split; [|done]. intros [= ?]. done.
Qed.

(** The parameters the engine settles on: they keep the store, never
    raise, and only the IPv4 echo services are contacted on the way. *)
Lemma ip_settings_run self E st :
  let r := ip_settings self E st in
  final r = st ∧
  (∀ u, u ∉ ip_utils.ipv4_services → exchanges_with u (events r) = []) ∧
  ∃ p, value r = Ret p ∧
    p !! "ip" =
      (if update_ipv4 self then
         match Py.if_truthy (ipv4 self) with
         | Some a => Some a
         | None => Py.if_truthy (first_answer E ip_utils.ipv4_services)
         end
       else None) ∧
    p !! "ipv6" =
      (if update_ipv6 self then Py.if_truthy (ipv6 self) else None).
Proof.
  unfold ip_settings.
  destruct (get_ipv4_run E st) as (Hf & Hv & _ & Hu & _).
  destruct (ip_utils.get_ipv4 E st) as [evs st' v] eqn:Hg.
  cbn [events final value] in Hf, Hv, Hu. subst st' v.
  assert (∀ (m : gmap string string) k,
    k ≠ "ipv6" →
    (if update_ipv6 self
     then match Py.if_truthy (ipv6 self) with
          | Some a => <["ipv6":=a]> m
          | None => m
          end
     else m) !! k = m !! k) as Hother.
  { intros m k Hk. destruct (update_ipv6 self); [|done].
    destruct (Py.if_truthy (ipv6 self)); [|done].
    by rewrite lookup_insert_ne. }
  assert (∀ (m : gmap string string),
    m !! "ipv6" = None →
    (if update_ipv6 self
     then match Py.if_truthy (ipv6 self) with
          | Some a => <["ipv6":=a]> m
          | None => m
          end
     else m) !! "ipv6" =
    (if update_ipv6 self then Py.if_truthy (ipv6 self) else None)) as Hv6.
  { intros m Hm. destruct (update_ipv6 self); [|done].
    destruct (Py.if_truthy (ipv6 self)); [|done].
    by rewrite lookup_insert_eq. }
  destruct (update_ipv4 self); [destruct (Py.if_truthy (ipv4 self))|].
  - m_run. split; [done|]. split; [done|]. eexists. split; [done|].
    rewrite Hother, Hv6 by done. by rewrite lookup_insert_eq.
  - m_unfold. cbn [events final value]. rewrite Hg.
    cbn [events final value].
    destruct (Py.if_truthy (first_answer E ip_utils.ipv4_services));
      cbn; rewrite !app_nil_r; (split; [done|]); (split; [done|]);
      eexists; (split; [done|]); rewrite Hother, Hv6 by done;
      by rewrite ?lookup_insert_eq.
  - m_run. split; [done|]. split; [done|]. eexists. split; [done|].
    by rewrite Hother, Hv6 by done.
Qed.

Lemma update_url_not_echo : update_url ∉ ip_utils.ipv4_services.
Proof.
  intros H. repeat (apply elem_of_cons in H as [H|H]; [discriminate H|]).
  by apply elem_of_nil in H.
Qed.

Lemma echo6_not_echo4 u :
  u ∈ ip_utils.ipv6_services → u ∉ ip_utils.ipv4_services.
Proof.
  intros H6 H4.
  repeat (apply elem_of_cons in H6 as [->|H6];
    [repeat (apply elem_of_cons in H4 as [H4|H4]; [discriminate H4|]);
     by apply elem_of_nil in H4|]).
  by apply elem_of_nil in H6.
Qed.

(** One update attempt: the store is kept, a result is returned, exactly
    one request goes to the provider, and the result is what
    [provider_call] reads from the provider's answer to it. *)
Lemma update_duckdns_run self E st :
  let r := update_duckdns self E st in
  ∃ p res,
    let rq := Request update_url p 10 in
    value (ip_settings self E st) = Ret p ∧
    final r = st ∧ value r = Ret res ∧
    reads (http E rq) (clock E) res ∧
    exchanges_with update_url (events r) = [(rq, http E rq)] ∧
    (∀ u, u ∉ ip_utils.ipv4_services → u ≠ update_url →
          exchanges_with u (events r) = []).
Proof.
  destruct (ip_settings_run self E st) as (Hf & Hu & p & Hv & _).
  destruct (ip_settings self E st) as [evs st' v] eqn:Hs.
  cbn [events final value] in Hf, Hv, Hu. subst st' v.
  destruct (provider_call_run p E st) as (Hf' & Hev & res & Hv' & Hr).
  assert (exchanges (events (provider_call p E st)) =
          [(Request update_url p 10, http E (Request update_url p 10))])
    as Hx.
  { rewrite Hev. by destruct (http E _). }
  cbn zeta. unfold update_duckdns. rewrite (bind_run _ _ _ _ _ _ _ Hs).
  cbn [events final value]. exists p, res.
  repeat split; try done.
  - rewrite exchanges_with_app, Hu by apply update_url_not_echo.
    by rewrite (exchanges_with_single _ _ _ _ Hx).
  - intros u Hu4 Hne. rewrite exchanges_with_app, Hu by done.
    rewrite (exchanges_with_single _ _ _ _ Hx). cbn [url].
    by destruct (String.eqb_spec update_url u).
Qed.

(** Only [run] sends a result through the signal. *)
Lemma ip_settings_quiet self E st :
  emitted (events (ip_settings self E st)) = [].
Proof.
  unfold ip_settings.
  pose proof (get_ipv4_quiet E st) as Hq.
  destruct (get_ipv4_run E st) as (Hf & Hv & _).
  destruct (ip_utils.get_ipv4 E st) as [evs st' v] eqn:Hg.
  cbn [events final value] in Hf, Hv, Hq. subst st' v.
  destruct (update_ipv4 self); [destruct (Py.if_truthy (ipv4 self))|];
    [done| |done].
  m_unfold. cbn [events final value]. rewrite Hg. cbn [events final value].
  destruct (Py.if_truthy (first_answer E ip_utils.ipv4_services));
    cbn [events final value]; autorewrite with obs; by rewrite Hq.
Qed.

Lemma update_duckdns_quiet self E st :
  emitted (events (update_duckdns self E st)) = [].
Proof.
  pose proof (ip_settings_quiet self E st) as Hq.
  destruct (ip_settings_run self E st) as (Hf & _ & p & Hv & _).
  destruct (ip_settings self E st) as [evs st' v] eqn:Hs.
  cbn [events final value] in Hf, Hv, Hq. subst st' v.
  destruct (provider_call_run p E st) as (_ & Hev & _).
  unfold update_duckdns. rewrite (bind_run _ _ _ _ _ _ _ Hs).
  cbn [events]. rewrite emitted_app, Hq, Hev.
  by destruct (http E _).
Qed.

(** [run] hands the result of [update_duckdns] to the signal, once, and
    does not raise. *)
Lemma run_emits self E st res :
  value (update_duckdns self E st) = Ret res →
  value (run self E st) = Ret () ∧ emitted (events (run self E st)) = [res].
Proof.
  intros Hv. pose proof (update_duckdns_quiet self E st) as Hq.
  unfold run, try_except.
  destruct (update_duckdns self E st) as [evs st' v] eqn:Hu.
  cbn [value events] in Hv, Hq. subst v.
  rewrite (bind_run _ _ _ _ _ _ _ Hu). m_unfold. cbn [events final value].
  split; [done|]. autorewrite with obs. by rewrite Hq.
Qed.

End engine.

(** ** The update engine: properties *)

Section engine_properties.
Import duck_dns_updater.

(** A run has exactly one answer of the provider, and the result is read
    from it. *)
Lemma update_duckdns_reply self E st rp :
  rp ∈ provider_replies (events (update_duckdns self E st)) →
  ∃ res, value (update_duckdns self E st) = Ret res ∧ reads rp (clock E) res.
Proof.
  destruct (update_duckdns_run self E st)
    as (p & res & _ & _ & Hv & Hr & Hx & _).
  unfold provider_replies. rewrite Hx. cbn.
  intros ->%list_elem_of_singleton. by exists res.
Qed.

(** C1. When the provider answers 200, the body is trimmed and split on
    newlines; there always is a first line. If it is OK the result is a
    success, its ipv4 is the second line exactly when that line exists, is
    not empty and is not NOCHANGE, its ipv6 is the third line under the
    same condition, and the message carries the fourth line, or UPDATED
    when there is none. Any other first line gives the failure
    "Update failed: Invalid response" with both addresses absent. *)
Theorem update_duckdns_reads_body self E st body :
  Response 200 body ∈ provider_replies (events (update_duckdns self E st)) →
  ∃ res first,
    value (update_duckdns self E st) = Ret res ∧
    Py.split_lines (Py.strip body) !! 0%nat = Some first ∧
    (first = "OK" →
       UpdateResult.success res = true ∧
       (∀ a, UpdateResult.ipv4 res = Some a ↔
             Py.split_lines (Py.strip body) !! 1%nat = Some a ∧
             a ≠ "" ∧ a ≠ "NOCHANGE") ∧
       (∀ a, UpdateResult.ipv6 res = Some a ↔
             Py.split_lines (Py.strip body) !! 2%nat = Some a ∧
             a ≠ "" ∧ a ≠ "NOCHANGE") ∧
       UpdateResult.message res =
         "Update successful: " +:+
         default "UPDATED" (Py.split_lines (Py.strip body) !! 3%nat)) ∧
    (first ≠ "OK" →
       UpdateResult.success res = false ∧
       UpdateResult.message res = "Update failed: Invalid response" ∧
       UpdateResult.ipv4 res = None ∧ UpdateResult.ipv6 res = None).
Proof.
  intros (res & Hv & Hr)%update_duckdns_reply.
  destruct (split_lines_nonempty (Py.strip body)) as (first & ls & Hl).
  exists res, first. cbn in Hr. destruct Hr as (_ & Hok & Hbad).
  rewrite Hl in *. cbn in Hok, Hbad.
  split; [done|]. split; [done|]. split.
  - intros ->. by apply Hok.
  - intros Hne. by rewrite Hbad by congruence.
Qed.

(** The provider's answer of the written specification: an address, an empty
    third line, the token. *)
Lemma update_duckdns_reads_body_witness :
  ∃ res first,
    value (update_duckdns sample.thread
             (sample.provider_says
                (Response 200 (String.concat (String Py.newline "")
                                 ["OK"; "1.2.3.4"; ""; "UPDATED"])))
             sample.empty_store) = Ret res ∧
    Py.split_lines (Py.strip (String.concat (String Py.newline "")
                                 ["OK"; "1.2.3.4"; ""; "UPDATED"])) !! 0%nat
      = Some first ∧
    (first = "OK" →
       UpdateResult.success res = true ∧
       (∀ a, UpdateResult.ipv4 res = Some a ↔
             Py.split_lines (Py.strip (String.concat (String Py.newline "")
                                 ["OK"; "1.2.3.4"; ""; "UPDATED"])) !! 1%nat
               = Some a ∧ a ≠ "" ∧ a ≠ "NOCHANGE") ∧
       (∀ a, UpdateResult.ipv6 res = Some a ↔
             Py.split_lines (Py.strip (String.concat (String Py.newline "")
                                 ["OK"; "1.2.3.4"; ""; "UPDATED"])) !! 2%nat
               = Some a ∧ a ≠ "" ∧ a ≠ "NOCHANGE") ∧
       UpdateResult.message res =
         "Update successful: " +:+
         default "UPDATED"
           (Py.split_lines (Py.strip (String.concat (String Py.newline "")
                                 ["OK"; "1.2.3.4"; ""; "UPDATED"])) !! 3%nat)) ∧
    (first ≠ "OK" →
       UpdateResult.success res = false ∧
       UpdateResult.message res = "Update failed: Invalid response" ∧
       UpdateResult.ipv4 res = None ∧ UpdateResult.ipv6 res = None).
Proof.
  apply (update_duckdns_reads_body sample.thread).
  vm_compute. constructor.
Defined.

(** The two answers the written specification gives as examples. *)
Example update_duckdns_address_and_token :
  value (update_duckdns sample.thread
           (sample.provider_says
              (Response 200 (String.concat (String Py.newline "")
                               ["OK"; "1.2.3.4"; ""; "UPDATED"])))
           sample.empty_store)
  = Ret (UpdateResult.Build true "Update successful: UPDATED"
           (Some "1.2.3.4") None "2024-01-01T00:00:00").
Proof. reflexivity. Qed.

Example update_duckdns_nochange :
  value (update_duckdns sample.thread
           (sample.provider_says
              (Response 200 (String.concat (String Py.newline "")
                               ["OK"; "NOCHANGE"; "NOCHANGE"])))
           sample.empty_store)
  = Ret (UpdateResult.Build true "Update successful: UPDATED"
           None None "2024-01-01T00:00:00").
Proof. reflexivity. Qed.

(** C8. When the provider answers with a status other than 200, the result
    is a failure whose message ends in the status code in decimal, and both
    addresses are absent; for status 500 the message is
    "Update failed: HTTP 500". *)
Theorem update_duckdns_http_status self E st c body :
  Response c body ∈ provider_replies (events (update_duckdns self E st)) →
  c ≠ 200 →
  ∃ res,
    value (update_duckdns self E st) = Ret res ∧
    UpdateResult.success res = false ∧
    UpdateResult.message res = "Update failed: HTTP " +:+ Py.str c ∧
    UpdateResult.ipv4 res = None ∧ UpdateResult.ipv6 res = None ∧
    (c = 500 → UpdateResult.message res = "Update failed: HTTP 500").
Proof.
  intros (res & Hv & Hr)%update_duckdns_reply Hc.
  exists res. cbn in Hr.
  destruct (Z.eqb_spec c 200) as [?|_]; [done|]. subst res. cbn.
  repeat split; try done. by intros ->.
Qed.

Lemma update_duckdns_http_status_witness :
  ∃ res,
    value (update_duckdns sample.thread
             (sample.provider_says (Response 500 "KO"))
             sample.empty_store) = Ret res ∧
    UpdateResult.success res = false ∧
    UpdateResult.message res = "Update failed: HTTP " +:+ Py.str 500 ∧
    UpdateResult.ipv4 res = None ∧ UpdateResult.ipv6 res = None ∧
    (500 = 500 → UpdateResult.message res = "Update failed: HTTP 500").
Proof.
  apply (update_duckdns_http_status sample.thread _ _ 500 "KO");
    [vm_compute; constructor | lia].
Defined.

(** C5. An update attempt always returns a result, whatever the provider
    call does: one request goes to the provider, and a network fault, a
    status other than 200, or a body whose first line is not OK each give a
    result with success = false and a message that names the cause; success
    is true only for a 200 answer that starts with OK. [run] does not raise
    either and hands that one result to the signal. *)
Theorem update_duckdns_never_raises self E st :
  ∃ res rq,
    value (update_duckdns self E st) = Ret res ∧
    exchanges_with update_url (events (update_duckdns self E st))
      = [(rq, http E rq)] ∧
    (∀ e, http E rq = Fault e →
          UpdateResult.success res = false ∧
          UpdateResult.message res = "Network error: " +:+ e) ∧
    (∀ c body, http E rq = Response c body → c ≠ 200 →
          UpdateResult.success res = false ∧
          UpdateResult.message res = "Update failed: HTTP " +:+ Py.str c) ∧
    (∀ body, http E rq = Response 200 body →
          Py.split_lines (Py.strip body) !! 0%nat ≠ Some "OK" →
          UpdateResult.success res = false ∧
          UpdateResult.message res = "Update failed: Invalid response") ∧
    (UpdateResult.success res = true →
          ∃ body, http E rq = Response 200 body ∧
                  Py.split_lines (Py.strip body) !! 0%nat = Some "OK") ∧
    value (run self E st) = Ret () ∧
    emitted (events (run self E st)) = [res].
Proof.
  destruct (update_duckdns_run self E st)
    as (p & res & _ & _ & Hv & Hr & Hx & _).
  destruct (run_emits self E st res Hv) as [Hrun Hem].
  exists res, (Request update_url p 10).
  split; [done|]. split; [done|].
  repeat apply conj; try done.
  - intros e He. rewrite He in Hr. cbn in Hr. by subst res.
  - intros c body He Hc. rewrite He in Hr. cbn in Hr.
    destruct (Z.eqb_spec c 200); [done|]. by subst res.
  - intros body He Hl. rewrite He in Hr. cbn in Hr.
    destruct Hr as (_ & _ & Hbad). by rewrite (Hbad Hl).
  - intros Hs. destruct (http E _) as [e|c body]; cbn in Hr.
    + subst res. done.
    + destruct (Z.eqb_spec c 200) as [->|_]; [|by subst res].
      exists body. split; [done|].
      destruct (decide (Py.split_lines (Py.strip body) !! 0%nat = Some "OK"))
        as [Hok|Hbad]; [done|].
      destruct Hr as (_ & _ & Hr). rewrite (Hr Hbad) in Hs. done.
Qed.

(** C2. One request goes to the provider. With update_ipv4 set, its ip
    parameter is the override when that is present and not empty; else it
    is what IPv4 discovery returns when that is an address (present and not
    empty); else the parameter is left out. With update_ipv4 unset there is
    no ip parameter, whatever the override. *)
Theorem update_duckdns_ip_parameter self E st :
  ∃ rq rp,
    exchanges_with update_url (events (update_duckdns self E st))
      = [(rq, rp)] ∧
    (update_ipv4 self = true →
       (∀ a, ipv4 self = Some a → a ≠ "" → params rq !! "ip" = Some a) ∧
       (ipv4 self = None ∨ ipv4 self = Some "" →
          (∀ d, value (ip_utils.get_ipv4 E st) = Ret (Some d) → d ≠ "" →
                params rq !! "ip" = Some d) ∧
          (value (ip_utils.get_ipv4 E st) = Ret None ∨
           value (ip_utils.get_ipv4 E st) = Ret (Some "") →
                params rq !! "ip" = None))) ∧
    (update_ipv4 self = false → params rq !! "ip" = None).
Proof.
  destruct (update_duckdns_run self E st)
    as (p & res & Hp & _ & _ & _ & Hx & _).
  destruct (ip_settings_run self E st) as (_ & _ & p' & Hp' & Hip & _).
  rewrite Hp in Hp'. injection Hp' as <-.
  destruct (get_ipv4_run E st) as (_ & Hd & _).
  exists (Request update_url p 10), (http E (Request update_url p 10)).
  split; [done|]. cbn [params]. rewrite Hip, Hd. split.
  - intros ->. split.
    + intros a Ha Hne.
      assert (Py.if_truthy (ipv4 self) = Some a) as ->; [|done].
      by apply if_truthy_Some.
    + intros Hno%if_truthy_None. rewrite Hno. split.
      * intros d Heq Hne. apply if_truthy_Some. split; [congruence|done].
      * intros [Heq|Heq]; apply if_truthy_None; [left|right]; congruence.
  - by intros ->.
Qed.

(** C3. One request goes to the provider. It has an ipv6 parameter, the
    override, exactly when update_ipv6 is set and the override is present
    and not empty; with update_ipv6 set and no override there is none. No
    request goes to an IPv6 echo service. *)
Theorem update_duckdns_ipv6_parameter self E st :
  ∃ rq rp,
    exchanges_with update_url (events (update_duckdns self E st))
      = [(rq, rp)] ∧
    (∀ a, params rq !! "ipv6" = Some a ↔
          update_ipv6 self = true ∧ ipv6 self = Some a ∧ a ≠ "") ∧
    (update_ipv6 self = true → ipv6 self = None →
          params rq !! "ipv6" = None) ∧
    (∀ u, u ∈ ip_utils.ipv6_services →
          exchanges_with u (events (update_duckdns self E st)) = []).
Proof.
  destruct (update_duckdns_run self E st)
    as (p & res & Hp & _ & _ & _ & Hx & Hu).
  destruct (ip_settings_run self E st) as (_ & _ & p' & Hp' & _ & Hip).
  rewrite Hp in Hp'. injection Hp' as <-.
  exists (Request update_url p 10), (http E (Request update_url p 10)).
  split; [done|]. cbn [params]. rewrite Hip. repeat apply conj.
  - intros a. destruct (update_ipv6 self).
    + rewrite if_truthy_Some. split; [by intros [? ?]|by intros (_ & ? & ?)].
    + split; [done|]. by intros ([=] & _).
  - by intros -> ->.
  - intros u Hu6. apply Hu; [by apply echo6_not_echo4|].
    intros ->. repeat (apply elem_of_cons in Hu6 as [Hu6|Hu6];
                       [discriminate Hu6|]).
    by apply elem_of_nil in Hu6.
Qed.

End engine_properties.

(** ** IP discovery: properties *)

Section discovery_properties.
Import ip_utils.

Lemma get_ipv4_events E st :
  events (get_ipv4 E st) =
  events (get_ipv4_loop ipv4_services E st) ++
  match first_answer E ipv4_services with
  | Some _ => []
  | None => [Log logger ERROR
               "Failed to retrieve IPv4 address from any service"]
  end.
Proof.
  unfold get_ipv4. generalize ipv4_services. intros services.
  destruct (get_ipv4_loop_run services E st) as (Hf & Hv & _).
  destruct (get_ipv4_loop services E st) as [evs st' v] eqn:Hl.
  cbn [events final value] in Hf, Hv. subst st' v.
  rewrite (bind_run _ _ _ _ _ _ _ Hl).
  by destruct (first_answer E services).
Qed.

Lemma first_answer_all_fault E services :
  (∀ s, s ∈ services → ∃ e, http E (echo_request s) = Fault e) →
  first_answer E services = None.
Proof.
  induction services as [|s rest IH]; intros Hall; [done|]. cbn.
  destruct (Hall s) as [e ->]; [by left|].
  apply IH. intros s' Hs'. apply Hall. by right.
Qed.

(** C9, as the specification words it, fails: a service that answers 200
    with a blank body ends the search, and the empty string is returned
    although the next service has an address. *)
Lemma get_ipv4_returns_blank :
  value (get_ipv4 sample.blank_first sample.empty_store) = Ret (Some "") ∧
  first_nonempty_answer sample.blank_first ipv4_services = Some "1.2.3.4" ∧
  value (get_ipv4 sample.blank_first sample.empty_store) ≠
    Ret (first_nonempty_answer sample.blank_first ipv4_services).
Proof. split; [reflexivity|]. split; [reflexivity|]. discriminate. Qed.

(** C9, amended. [get_ipv4] asks its three services in order, stops at the
    first that answers with status 200 and returns that body trimmed, as it
    is (unchecked, and possibly empty). It never raises. If no service
    answers 200, in particular if every request raises, it returns None
    and logs one error. Every service that raises before an answer is found
    leaves a warning in the log and the next service is asked. *)
Theorem get_ipv4_first_answer E st :
  value (get_ipv4 E st) = Ret (first_answer E ipv4_services) ∧
  (∃ n, exchanges (events (get_ipv4 E st))
        = echo_exchange E <$> take n ipv4_services) ∧
  (∀ i s e, ipv4_services !! i = Some s →
            first_answer E (take i ipv4_services) = None →
            http E (echo_request s) = Fault e →
            ipv4_warning s e ∈ logged WARNING (events (get_ipv4 E st))) ∧
  ((∀ s, s ∈ ipv4_services → ∃ e, http E (echo_request s) = Fault e) →
     value (get_ipv4 E st) = Ret None ∧
     exchanges (events (get_ipv4 E st)) = echo_exchange E <$> ipv4_services) ∧
  logged ERROR (events (get_ipv4 E st)) =
    match first_answer E ipv4_services with
    | Some _ => []
    | None => ["Failed to retrieve IPv4 address from any service"]
    end.
Proof.
  destruct (get_ipv4_run E st) as (_ & Hv & Hn & _ & He).
  split; [done|]. split; [done|]. split; [|split; [|done]].
  - intros i s e Hi Hnone Hs. rewrite get_ipv4_events, logged_app.
    apply elem_of_app. left. by apply (get_ipv4_loop_warns _ _ _ i).
  - intros Hall. rewrite Hv. rewrite (first_answer_all_fault _ _ Hall).
    split; [done|].
    rewrite get_ipv4_events, (first_answer_all_fault _ _ Hall).
    rewrite exchanges_app. cbn [exchanges omap list_omap]. rewrite app_nil_r.
    clear Hv Hn He. revert Hall. generalize ipv4_services.
    intros services. induction services as [|s rest IH]; intros Hall;
      [done|].
    cbn -[exchanges]. pose proof (get_ipv4_body_run s E st) as Hb.
    destruct (Hall s) as [e Hs]; [by left|]. rewrite Hs in Hb.
    rewrite (bind_run _ _ _ _ _ _ _ Hb). cbn -[exchanges].
    autorewrite with obs. unfold echo_exchange at 1. rewrite Hs.
    f_equal. apply IH. intros s' Hs'. apply Hall. by right.
Qed.

End discovery_properties.

(** ** The settings store: properties *)

Section store_properties.
Import config_manager.

(** What [save_history] writes for a list: the list, cut to its last 1000
    items when it is longer. *)
Lemma save_history_run self h E st l :
  heap st !! h = Some l →
  let saved := if 1000 <? Py.len l then Py.slice_last 1000 l else l in
  let heap' := if 1000 <? Py.len l
               then heap st ++ [Py.slice_last 1000 l] else heap st in
  save_history self h E st =
  match write_fault E (history_file self) with
  | None =>
      Ran [Log logger INFO
             ("Saved " +:+ Py.str (Py.len saved) +:+ " history entries")]
          (Store (<[history_file self := Doc (JArr saved)]> (fs st)) heap')
          (Ret true)
  | Some (e, rest) =>
      Ran [Log logger ERROR ("Error saving history: " +:+ e)]
          (Store (match rest with
                  | Some f => <[history_file self := f]> (fs st)
                  | None => delete (history_file self) (fs st)
                  end) heap')
          (Ret false)
  end.
Proof.
  intros Hl. unfold save_history, deref, alloc, json_dump. m_unfold.
  cbn [events final value heap fs]. rewrite Hl.
  cbn [events final value heap fs].
  destruct (1000 <? Py.len l); cbn [events final value heap fs].
  - rewrite (list_lookup_middle _ [] _ _ eq_refl).
    cbn [events final value heap fs].
    by destruct (write_fault E _) as [[e [f|]]|].
  - rewrite Hl. cbn [events final value heap fs].
    by destruct (write_fault E _) as [[e [f|]]|].
Qed.

(** A reference that is not a list: the error is logged, nothing changes. *)
Lemma save_history_no_list self h E st :
  heap st !! h = None →
  save_history self h E st =
  Ran [Log logger ERROR "Error saving history: object is not a list"] st
      (Ret false).
Proof.
  intros Hl. unfold save_history, deref. m_unfold.
  cbn [events final value heap fs]. by rewrite Hl.
Qed.

(** C4. When the write goes through, [save_history] returns True and the
    history file holds a list of at most 1000 entries: for a history of
    more than 1000 entries its last 1000, in their order (the history is
    some older entries followed by the saved ones), and for a history of
    at most 1000 entries the history itself. *)
Theorem save_history_caps self h E st l :
  heap st !! h = Some l →
  write_fault E (history_file self) = None →
  ∃ saved,
    value (save_history self h E st) = Ret true ∧
    fs (final (save_history self h E st)) !! history_file self
      = Some (Doc (JArr saved)) ∧
    (length saved ≤ 1000)%nat ∧
    ((1000 < length l)%nat →
       length saved = 1000%nat ∧ ∃ old, l = old ++ saved) ∧
    ((length l ≤ 1000)%nat → saved = l).
Proof.
  intros Hl Hw. rewrite (save_history_run _ _ _ _ _ Hl), Hw.
  cbn [events final value heap fs]. eexists. split; [done|].
  split; [by rewrite lookup_insert_eq|].
  unfold Py.len. destruct (Z.ltb_spec 1000 (Z.of_nat (length l))) as [Hlen|Hlen].
  - rewrite slice_last_length. split; [lia|]. split; [|lia].
    intros _. split; [lia|].
    exists (take (Z.to_nat (Py.len l - 1000)) l).
    by rewrite slice_last_suffix.
  - split; [lia|]. split; [lia|done].
Qed.

Lemma save_history_caps_witness :
  ∃ saved,
    value (save_history sample.manager 0 sample.offline sample.history_store)
      = Ret true ∧
    fs (final (save_history sample.manager 0 sample.offline
                 sample.history_store)) !! history_file sample.manager
      = Some (Doc (JArr saved)) ∧
    (length saved ≤ 1000)%nat ∧
    ((1000 < length sample.long_history)%nat →
       length saved = 1000%nat ∧ ∃ old, sample.long_history = old ++ saved) ∧
    ((length sample.long_history ≤ 1000)%nat → saved = sample.long_history).
Proof.
  apply (save_history_caps sample.manager 0 sample.offline
           sample.history_store sample.long_history); reflexivity.
Defined.

(** Of 1002 entries numbered from 0, the entries 2 to 1001 are saved. *)
Example save_history_long :
  fs (final (save_history sample.manager 0 sample.offline
               sample.history_store)) !! history_file sample.manager
  = Some (Doc (JArr ((λ n, JInt (Z.of_nat n)) <$> seq 2 1000))).
Proof. vm_compute. reflexivity. Qed.

(** C10. [save_history] leaves the list it is given as it was: the object
    behind the caller's reference, and every other object of the heap, is
    the same after the call. For a history of more than 1000 entries whose
    write goes through, the file holds the last 1000 entries while the
    caller's list still holds them all. *)
Theorem save_history_keeps_argument self h E st :
  heap (final (save_history self h E st)) !! h = heap st !! h ∧
  (∀ k l, heap st !! k = Some l →
          heap (final (save_history self h E st)) !! k = Some l) ∧
  (∀ l, heap st !! h = Some l → (1000 < length l)%nat →
        write_fault E (history_file self) = None →
        fs (final (save_history self h E st)) !! history_file self
          = Some (Doc (JArr (Py.slice_last 1000 l))) ∧
        heap (final (save_history self h E st)) !! h = Some l).
Proof.
  assert (∀ k l, heap st !! k = Some l →
            heap (final (save_history self h E st)) !! k = Some l) as Hkeep.
  { intros k l Hk. destruct (heap st !! h) as [lh|] eqn:Hh.
    - rewrite (save_history_run _ _ _ _ _ Hh).
      destruct (write_fault E _) as [[e rest]|]; cbn [final heap];
        (destruct (1000 <? Py.len lh); [by apply lookup_app_l_Some|done]).
    - by rewrite (save_history_no_list _ _ _ _ Hh). }
  split; [|split; [done|]].
  - destruct (heap st !! h) as [lh|] eqn:Hh; [by apply Hkeep|].
    by rewrite (save_history_no_list _ _ _ _ Hh).
  - intros l Hl Hlen Hw. split; [|by apply Hkeep].
    rewrite (save_history_run _ _ _ _ _ Hl), Hw. cbn [final fs].
    assert ((1000 <? Py.len l) = true) as -> by (unfold Py.len; lia).
    by rewrite lookup_insert_eq.
Qed.

Lemma default_config_populated : fully_populated get_default_config = true.
Proof. reflexivity. Qed.

(** What [load_config] returns for each state of the settings file. *)
Lemma load_config_run self E st :
  load_config self E st =
  match fs st !! config_file self with
  | Some (Doc d) =>
      Ran [Log logger INFO "Configuration loaded successfully"] st (Ret d)
  | Some (Garbage e) =>
      Ran [Log logger ERROR ("Error loading configuration: " +:+ e)] st
          (Ret get_default_config)
  | None =>
      Ran [Log logger INFO "No configuration file found, using defaults"] st
          (Ret get_default_config)
  end.
Proof.
  unfold load_config, path_exists, json_load. m_unfold.
  cbn [events final value].
  destruct (fs st !! config_file self) as [[d|e]|] eqn:Hf;
    cbn [events final value].
  - rewrite bool_decide_true by eauto. cbn [events final value].
    by rewrite Hf.
  - rewrite bool_decide_true by eauto. cbn [events final value].
    by rewrite Hf.
  - rewrite bool_decide_false by (by intros [? ?]). done.
Qed.

(** C6, as the specification words it, fails: a settings file that parses
    and has only two fields is returned as it is. *)
Lemma load_config_partial_file :
  value (load_config sample.manager sample.offline sample.partial_store)
    = Ret sample.partial_doc ∧
  fully_populated sample.partial_doc = false.
Proof. split; reflexivity. Qed.

(** C6, amended. A load always returns a document. For a settings file that
    parses, it is the document of the file, unchanged: it is fully populated
    exactly when the file is, and fields the file leaves out stay absent.
    In every other case it is the default document, which has every field
    of the data model. *)
Theorem load_config_returns self E st :
  ∃ v,
    value (load_config self E st) = Ret v ∧
    (∀ d, fs st !! config_file self = Some (Doc d) → v = d) ∧
    ((∀ d, fs st !! config_file self ≠ Some (Doc d)) →
       v = get_default_config ∧ fully_populated v = true).
Proof.
  rewrite load_config_run.
  destruct (fs st !! config_file self) as [[d|e]|];
    cbn [value]; eexists; (split; [done|]); split;
    try (intros d' [= <-]; done); try done.
  intros Hno. by destruct (Hno d).
Qed.

(** C7. When the settings file is missing or cannot be parsed,
    [load_config] returns the default document, which has every field of
    the data model; it does not raise and changes nothing. The condition is
    logged: an info record for a missing file, an error record with the
    cause for an unparsable one. *)
Theorem load_config_defaults self E st :
  (fs st !! config_file self = None ∨
   ∃ e, fs st !! config_file self = Some (Garbage e)) →
  value (load_config self E st) = Ret get_default_config ∧
  fully_populated get_default_config = true ∧
  final (load_config self E st) = st ∧
  (fs st !! config_file self = None →
     events (load_config self E st)
       = [Log logger INFO "No configuration file found, using defaults"]) ∧
  (∀ e, fs st !! config_file self = Some (Garbage e) →
     events (load_config self E st)
       = [Log logger ERROR ("Error loading configuration: " +:+ e)]).
Proof.
  intros Hf. rewrite load_config_run.
  destruct Hf as [Hf|[e Hf]]; rewrite Hf; cbn [events final value];
    repeat apply conj; try done.
  by intros e' [= <-].
Qed.

Lemma load_config_defaults_witness :
  value (load_config sample.manager sample.offline sample.corrupt_store)
    = Ret get_default_config ∧
  fully_populated get_default_config = true ∧
  final (load_config sample.manager sample.offline sample.corrupt_store)
    = sample.corrupt_store ∧
  (fs sample.corrupt_store !! config_file sample.manager = None →
     events (load_config sample.manager sample.offline sample.corrupt_store)
       = [Log logger INFO "No configuration file found, using defaults"]) ∧
  (∀ e, fs sample.corrupt_store !! config_file sample.manager
          = Some (Garbage e) →
     events (load_config sample.manager sample.offline sample.corrupt_store)
       = [Log logger ERROR ("Error loading configuration: " +:+ e)]).
Proof.
  apply (load_config_defaults sample.manager sample.offline
           sample.corrupt_store).
  right. exists "Expecting value". reflexivity.
Defined.

End store_properties.

(** ** IP discovery: further properties *)

Section discovery_more.
Import ip_utils.

Lemma logged_debug_at lv lg m evs :
  logged lv (Log lg DEBUG m :: evs) =
  match lv with DEBUG => m :: logged lv evs | _ => logged lv evs end.
Proof. by destruct lv. Qed.

#[local] Hint Rewrite logged_debug_at : obs.

Lemma first_answer_no_200 E services :
  (∀ s, s ∈ services →
        ∃ c b, http E (echo_request s) = Response c b ∧ c ≠ 200) →
  first_answer E services = None.
Proof.
  induction services as [|s rest IH]; intros Hall; [done|]. cbn.
  destruct (Hall s) as (c & b & -> & Hc); [by left|].
  destruct (Z.eqb_spec c 200); [done|].
  apply IH. intros s' Hs'. apply Hall. by right.
Qed.

(** The loop of [get_ipv4] when a service answers 200 after [i] services
    that did not. *)
Lemma get_ipv4_loop_stops services E st i s b :
  services !! i = Some s →
  first_answer E (take i services) = None →
  http E (echo_request s) = Response 200 b →
  exchanges (events (get_ipv4_loop services E st))
    = echo_exchange E <$> take (S i) services ∧
  logged INFO (events (get_ipv4_loop services E st))
    = ["Retrieved IPv4 address: " +:+ Py.strip b].
Proof.
  revert i. induction services as [|s' rest IH]; intros i Hi Hnone Hs;
    [done|].
  cbn -[exchanges logged take].
  pose proof (get_ipv4_body_run s' E st) as Hb.
  destruct i as [|i]; cbn in Hi, Hnone.
  - injection Hi as ->. rewrite Hs in Hb. cbn in Hb.
    rewrite (bind_run _ _ _ _ _ _ _ Hb). cbn -[exchanges logged].
    autorewrite with obs. unfold echo_exchange. by rewrite Hs.
  - destruct (IH i Hi) as [Hx Hl]; [|done|].
    { destruct (http E (echo_request s')) as [e'|c b']; [done|].
      by destruct (c =? 200). }
    destruct (http E (echo_request s')) as [e'|c b'] eqn:Hs';
      [|destruct (c =? 200) eqn:Hc; [done|]];
      rewrite (bind_run _ _ _ _ _ _ _ Hb); cbn -[exchanges logged take];
      autorewrite with obs; rewrite Hx, Hl;
      (split; [|done]);
      change (echo_exchange E <$> take (S (S i)) (s' :: rest))
        with ((echo_request s', http E (echo_request s'))
              :: (echo_exchange E <$> take (S i) rest));
      by rewrite Hs'.
Qed.

(** The loop of [get_ipv4] when every service answers, none with 200. *)
Lemma get_ipv4_loop_refused services E st :
  (∀ s, s ∈ services →
        ∃ c b, http E (echo_request s) = Response c b ∧ c ≠ 200) →
  exchanges (events (get_ipv4_loop services E st))
    = echo_exchange E <$> services ∧
  ∀ lv, logged lv (events (get_ipv4_loop services E st)) = [].
Proof.
  induction services as [|s rest IH]; intros Hall; [done|].
  cbn -[exchanges logged].
  pose proof (get_ipv4_body_run s E st) as Hb.
  destruct (Hall s) as (c & b & Hs & Hc); [by left|].
  rewrite Hs in Hb. destruct (Z.eqb_spec c 200); [done|].
  rewrite (bind_run _ _ _ _ _ _ _ Hb). cbn -[exchanges logged].
  destruct IH as [Hx Hl]. { intros s' Hs'. apply Hall. by right. }
  split.
  - autorewrite with obs. rewrite Hx.
    change (echo_exchange E s)
      with (echo_request s, http E (echo_request s)).
    by rewrite Hs.
  - intros lv. autorewrite with obs. apply Hl.
Qed.

(** X1. Once a service answers 200, [get_ipv4] returns its trimmed body, has
    asked that service and the ones before it and no other, and logs the
    address found as its one info record. *)
Theorem get_ipv4_stops_at_answer E st i s b :
  ipv4_services !! i = Some s →
  first_answer E (take i ipv4_services) = None →
  http E (echo_request s) = Response 200 b →
  value (get_ipv4 E st) = Ret (Some (Py.strip b)) ∧
  exchanges (events (get_ipv4 E st))
    = echo_exchange E <$> take (S i) ipv4_services ∧
  logged INFO (events (get_ipv4 E st))
    = ["Retrieved IPv4 address: " +:+ Py.strip b] ∧
  logged ERROR (events (get_ipv4 E st)) = [].
Proof.
  intros Hi Hnone Hs.
  destruct (get_ipv4_run E st) as (_ & Hv & _ & _ & He).
  destruct (get_ipv4_loop_stops _ E st _ _ _ Hi Hnone Hs) as [Hx Hl].
  assert (first_answer E ipv4_services = Some (Py.strip b)) as Hfa.
  { rewrite <- (take_drop i ipv4_services).
    rewrite (drop_S _ _ _ Hi). revert Hnone.
    generalize (take i ipv4_services) (drop (S i) ipv4_services).
    intros pre post. induction pre as [|s' pre IH]; cbn.
    - intros _. by rewrite Hs.
    - destruct (http E (echo_request s')) as [e'|c b']; [done|].
      by destruct (c =? 200). }
  rewrite Hv, He, get_ipv4_events, exchanges_app, logged_app, Hx, Hl, Hfa.
  by rewrite !app_nil_r.
Qed.

Lemma get_ipv4_stops_at_answer_witness :
  value (get_ipv4 sample.blank_first sample.empty_store)
    = Ret (Some (Py.strip (String Py.newline ""))) ∧
  exchanges (events (get_ipv4 sample.blank_first sample.empty_store))
    = echo_exchange sample.blank_first <$> take 1 ipv4_services ∧
  logged INFO (events (get_ipv4 sample.blank_first sample.empty_store))
    = ["Retrieved IPv4 address: " +:+ Py.strip (String Py.newline "")] ∧
  logged ERROR (events (get_ipv4 sample.blank_first sample.empty_store)) = [].
Proof.
  apply (get_ipv4_stops_at_answer sample.blank_first sample.empty_store 0
           "https://api.ipify.org"); reflexivity.
Defined.

(** X2. A service that answers with a status other than 200 is passed over
    without a log record: when all three do so, [get_ipv4] has asked all
    three, returns None, and its log holds the final error and nothing
    else. *)
Theorem get_ipv4_silent_on_status E st :
  (∀ s, s ∈ ipv4_services →
        ∃ c b, http E (echo_request s) = Response c b ∧ c ≠ 200) →
  value (get_ipv4 E st) = Ret None ∧
  exchanges (events (get_ipv4 E st)) = echo_exchange E <$> ipv4_services ∧
  logged DEBUG (events (get_ipv4 E st)) = [] ∧
  logged INFO (events (get_ipv4 E st)) = [] ∧
  logged WARNING (events (get_ipv4 E st)) = [] ∧
  logged ERROR (events (get_ipv4 E st))
    = ["Failed to retrieve IPv4 address from any service"].
Proof.
  intros Hall.
  destruct (get_ipv4_run E st) as (_ & Hv & _).
  destruct (get_ipv4_loop_refused _ E st Hall) as [Hx Hl].
  rewrite Hv, get_ipv4_events, (first_answer_no_200 _ _ Hall).
  rewrite exchanges_app, !logged_app, Hx, !Hl.
  by rewrite app_nil_r.
Qed.

Lemma get_ipv4_silent_on_status_witness :
  value (get_ipv4 sample.refusing sample.empty_store) = Ret None ∧
  exchanges (events (get_ipv4 sample.refusing sample.empty_store))
    = echo_exchange sample.refusing <$> ipv4_services ∧
  logged DEBUG (events (get_ipv4 sample.refusing sample.empty_store)) = [] ∧
  logged INFO (events (get_ipv4 sample.refusing sample.empty_store)) = [] ∧
  logged WARNING (events (get_ipv4 sample.refusing sample.empty_store)) = [] ∧
  logged ERROR (events (get_ipv4 sample.refusing sample.empty_store))
    = ["Failed to retrieve IPv4 address from any service"].
Proof.
  apply (get_ipv4_silent_on_status sample.refusing sample.empty_store).
  intros s _. exists 503, "Service Unavailable". split; [reflexivity|lia].
Defined.

Lemma get_ipv6_body_run service E st :
  get_ipv6_body service E st =
  match http E (echo_request service) with
  | Fault e =>
      Ran [Http (echo_request service) (Fault e);
           Log logger DEBUG (ipv6_debug service e)]
          st (Ret None)
  | Response c b =>
      if c =? 200 then
        Ran [Http (echo_request service) (Response c b);
             Log logger INFO ("Retrieved IPv6 address: " +:+ Py.strip b)]
            st (Ret (Some (Py.strip b)))
      else Ran [Http (echo_request service) (Response c b)] st (Ret None)
  end.
Proof.
  unfold get_ipv6_body, echo_request, ipv6_debug. m_run.
  destruct (http E _) as [e|c b]; cbn; [done|].
  destruct (c =? 200); done.
Qed.

Lemma get_ipv6_loop_run services E st :
  final (get_ipv6_loop services E st) = st ∧
  value (get_ipv6_loop services E st) = Ret (first_answer E services) ∧
  (∃ n, exchanges (events (get_ipv6_loop services E st))
        = echo_exchange E <$> take n services) ∧
  logged WARNING (events (get_ipv6_loop services E st)) = [] ∧
  logged ERROR (events (get_ipv6_loop services E st)) = [].
Proof.
  induction services as [|s rest IH]; cbn -[exchanges logged].
  { repeat split; try done. by exists 0%nat. }
  pose proof (get_ipv6_body_run s E st) as Hb.
  destruct IH as (Hf & Hv & [n Hn] & Hw & He).
  destruct (http E (echo_request s)) as [e|c b] eqn:Hs;
    [|destruct (c =? 200) eqn:Hc];
    rewrite (bind_run _ _ _ _ _ _ _ Hb);
    cbn -[exchanges logged]; autorewrite with obs;
    repeat split; try done.
  - exists (S n). cbn. rewrite Hn. unfold echo_exchange at 2. by rewrite Hs.
  - exists 1%nat. cbn. unfold echo_exchange. by rewrite Hs, take_0.
  - exists (S n). cbn. rewrite Hn. unfold echo_exchange at 2. by rewrite Hs.
Qed.

Lemma get_ipv6_loop_debugs services E st i s e :
  services !! i = Some s →
  first_answer E (take i services) = None →
  http E (echo_request s) = Fault e →
  ipv6_debug s e ∈ logged DEBUG (events (get_ipv6_loop services E st)).
Proof.
  revert i. induction services as [|s' rest IH]; intros i Hi Hnone Hs;
    [done|].
  cbn -[logged].
  pose proof (get_ipv6_body_run s' E st) as Hb.
  destruct i as [|i]; cbn in Hi, Hnone.
  - injection Hi as ->. rewrite Hs in Hb.
    rewrite (bind_run _ _ _ _ _ _ _ Hb). cbn -[logged].
    autorewrite with obs. apply elem_of_cons. by left.
  - destruct (http E (echo_request s')) as [e'|c b] eqn:Hs';
      [|destruct (c =? 200) eqn:Hc; [done|]];
      rewrite (bind_run _ _ _ _ _ _ _ Hb); cbn -[logged];
      autorewrite with obs; [apply elem_of_cons; right|]; by apply (IH i).
Qed.

Lemma get_ipv6_events E st :
  events (get_ipv6 E st) =
  events (get_ipv6_loop ipv6_services E st) ++
  match first_answer E ipv6_services with
  | Some _ => []
  | None => [Log logger WARNING "No IPv6 address detected"]
  end.
Proof.
  unfold get_ipv6. generalize ipv6_services. intros services.
  destruct (get_ipv6_loop_run services E st) as (Hf & Hv & _).
  destruct (get_ipv6_loop services E st) as [evs st' v] eqn:Hl.
  cbn [events final value] in Hf, Hv. subst st' v.
  rewrite (bind_run _ _ _ _ _ _ _ Hl).
  by destruct (first_answer E services).
Qed.

(** X3. [get_ipv6] asks its three services in order, stops at the first that
    answers with status 200 and returns that body trimmed; otherwise it
    returns None. It never raises and leaves disk and heap alone. A
    service that raises is logged at debug level only, finding nothing is
    one warning, and nothing is logged as an error. *)
Theorem get_ipv6_first_answer E st :
  value (get_ipv6 E st) = Ret (first_answer E ipv6_services) ∧
  final (get_ipv6 E st) = st ∧
  (∃ n, exchanges (events (get_ipv6 E st))
        = echo_exchange E <$> take n ipv6_services) ∧
  (∀ i s e, ipv6_services !! i = Some s →
            first_answer E (take i ipv6_services) = None →
            http E (echo_request s) = Fault e →
            ipv6_debug s e ∈ logged DEBUG (events (get_ipv6 E st))) ∧
  logged WARNING (events (get_ipv6 E st)) =
    match first_answer E ipv6_services with
    | Some _ => []
    | None => ["No IPv6 address detected"]
    end ∧
  logged ERROR (events (get_ipv6 E st)) = [].
Proof.
  rewrite get_ipv6_events.
  destruct (get_ipv6_loop_run ipv6_services E st)
    as (Hf & Hv & [n Hn] & Hw & He).
  assert (get_ipv6 E st =
          Ran (events (get_ipv6 E st)) st (Ret (first_answer E ipv6_services)))
    as Hrun.
  { unfold get_ipv6 at 1. rewrite get_ipv6_events.
    destruct (get_ipv6_loop ipv6_services E st) as [evs st' v] eqn:Hl.
    cbn [events final value] in Hf, Hv. subst st' v.
    rewrite (bind_run _ _ _ _ _ _ _ Hl).
    by destruct (first_answer E ipv6_services). }
  rewrite Hrun. cbn [value final].
  rewrite exchanges_app, !logged_app, Hw, He.
  split; [done|]. split; [done|]. split; [|split; [|split]].
  - exists n. rewrite Hn. by destruct (first_answer E ipv6_services);
      rewrite app_nil_r.
  - intros i s e Hi Hnone Hs. apply elem_of_app. left.
    by apply (get_ipv6_loop_debugs _ _ _ i).
  - by destruct (first_answer E ipv6_services).
  - by destruct (first_answer E ipv6_services).
Qed.

End discovery_more.

(** ** The update engine: further properties *)

Section engine_more.
Import duck_dns_updater.

Lemma ip_settings_value self E st :
  ip_settings self E st =
  Ran (if update_ipv4 self then
         match Py.if_truthy (ipv4 self) with
         | Some _ => []
         | None => events (ip_utils.get_ipv4 E st)
         end
       else [])
      st (Ret (sent_params self E)).
Proof.
  unfold ip_settings, sent_params, with_param.
  destruct (get_ipv4_run E st) as (Hf & Hv & _).
  destruct (ip_utils.get_ipv4 E st) as [evs st' v] eqn:Hg.
  cbn [events final value] in Hf, Hv. subst st' v.
  destruct (update_ipv4 self); [destruct (Py.if_truthy (ipv4 self))|];
    m_unfold; cbn [events final value]; [|rewrite Hg|];
    cbn [events final value];
    [|destruct (Py.if_truthy (first_answer E ip_utils.ipv4_services))|];
    cbn [events final value]; rewrite ?app_nil_r;
    (destruct (update_ipv6 self); [destruct (Py.if_truthy (ipv6 self))|]);
    done.
Qed.

(** A run of [update_duckdns] laid out: what discovery did, then the one
    request to the provider, then the error record if that request raised. *)
Lemma update_duckdns_events self E st :
  events (update_duckdns self E st) =
  (if update_ipv4 self then
     match Py.if_truthy (ipv4 self) with
     | Some _ => []
     | None => events (ip_utils.get_ipv4 E st)
     end
   else []) ++
  Http (update_request self E) (http E (update_request self E)) ::
  match http E (update_request self E) with
  | Fault e => [Log logger ERROR ("Network error: " +:+ e)]
  | Response _ _ => []
  end.
Proof.
  unfold update_duckdns.
  rewrite (bind_run _ _ _ _ _ _ _ (ip_settings_value self E st)).
  cbn [events].
  by destruct (provider_call_run (sent_params self E) E st) as (_ & -> & _).
Qed.

Lemma update_duckdns_value self E st :
  ∃ res, value (update_duckdns self E st) = Ret res ∧
         final (update_duckdns self E st) = st ∧
         reads (http E (update_request self E)) (clock E) res.
Proof.
  unfold update_duckdns.
  rewrite (bind_run _ _ _ _ _ _ _ (ip_settings_value self E st)).
  cbn [value final].
  destruct (provider_call_run (sent_params self E) E st)
    as (Hf & _ & res & Hv & Hr).
  by exists res.
Qed.

Lemma with_param_lookup k o m j :
  with_param k o m !! j = if decide (k = j) then
                            match o with Some a => Some a | None => m !! j end
                          else m !! j.
Proof.
  unfold with_param. destruct o as [a|].
  - rewrite lookup_insert. by destruct (decide (k = j)).
  - by destruct (decide (k = j)).
Qed.

(** X4. Every attempt sends exactly one request to the provider: a GET of
    the update URL with a timeout of 10 seconds that always carries
    domains, token and verbose=true, and no parameter other than these
    three, ip and ipv6. *)
Theorem update_duckdns_request_shape self E st :
  ∃ rq,
    exchanges_with update_url (events (update_duckdns self E st))
      = [(rq, http E rq)] ∧
    url rq = "https://www.duckdns.org/update" ∧ timeout rq = 10 ∧
    params rq !! "domains" = Some (domains self) ∧
    params rq !! "token" = Some (token self) ∧
    params rq !! "verbose" = Some "true" ∧
    (∀ k, is_Some (params rq !! k) → k ∈ request_keys).
Proof.
  destruct (update_duckdns_run self E st)
    as (p & res & Hp & _ & _ & _ & Hx & _).
  rewrite ip_settings_value in Hp. injection Hp as <-.
  exists (update_request self E). split; [done|].
  split; [done|]. split; [done|]. cbn [params update_request].
  unfold sent_params. rewrite !with_param_lookup. cbn.
  split; [done|]. split; [done|]. split; [done|].
  intros k. rewrite !with_param_lookup. unfold request_keys.
  destruct (decide ("ipv6" = k)) as [<-|?]; [set_solver|].
  destruct (decide ("ip" = k)) as [<-|?]; [set_solver|].
  destruct (decide ("verbose" = k)) as [<-|?]; [set_solver|].
  destruct (decide ("token" = k)) as [<-|?]; [set_solver|].
  destruct (decide ("domains" = k)) as [<-|?]; [set_solver|].
  rewrite !lookup_insert_ne, lookup_empty by done. by intros [? ?].
Qed.

(** X5. With IPv4 updates switched off, or with a non-empty IPv4 override,
    no echo service is asked: the request to the provider is the only
    request of the attempt. *)
Theorem update_duckdns_skips_discovery self E st :
  update_ipv4 self = false ∨ (∃ a, ipv4 self = Some a ∧ a ≠ "") →
  ∃ rq,
    exchanges (events (update_duckdns self E st)) = [(rq, http E rq)] ∧
    url rq = "https://www.duckdns.org/update".
Proof.
  intros Hskip. exists (update_request self E). split; [|done].
  rewrite update_duckdns_events.
  assert ((if update_ipv4 self then
             match Py.if_truthy (ipv4 self) with
             | Some _ => []
             | None => events (ip_utils.get_ipv4 E st)
             end
           else []) = []) as ->.
  { destruct Hskip as [->|(a & Ha & Hne)]; [done|].
    destruct (update_ipv4 self); [|done].
    by rewrite (proj2 (if_truthy_Some _ a) (conj Ha Hne)). }
  cbn [app]. autorewrite with obs. by destruct (http E _).
Qed.

Lemma update_duckdns_skips_discovery_witness :
  ∃ rq,
    exchanges (events (update_duckdns sample.thread sample.offline
                         sample.empty_store))
      = [(rq, http sample.offline rq)] ∧
    url rq = "https://www.duckdns.org/update".
Proof.
  apply (update_duckdns_skips_discovery sample.thread).
  right. exists "9.9.9.9". split; [reflexivity|discriminate].
Defined.

(** X6. With IPv4 updates on and no override (None or empty), the attempt
    first runs IPv4 discovery to its end and then sends its one request to
    the provider: the requests of the attempt are those of [get_ipv4]
    followed by the provider request. *)
Theorem update_duckdns_discovers_first self E st :
  update_ipv4 self = true →
  ipv4 self = None ∨ ipv4 self = Some "" →
  ∃ rq,
    exchanges (events (update_duckdns self E st))
      = exchanges (events (ip_utils.get_ipv4 E st)) ++ [(rq, http E rq)] ∧
    url rq = "https://www.duckdns.org/update".
Proof.
  intros Hon Hno%if_truthy_None. exists (update_request self E).
  split; [|done].
  rewrite update_duckdns_events, Hon, Hno, exchanges_app.
  autorewrite with obs. by destruct (http E _).
Qed.

Lemma update_duckdns_discovers_first_witness :
  ∃ rq,
    exchanges (events (update_duckdns sample.plain_thread sample.offline
                         sample.empty_store))
      = exchanges (events (ip_utils.get_ipv4 sample.offline
                             sample.empty_store))
        ++ [(rq, http sample.offline rq)] ∧
    url rq = "https://www.duckdns.org/update".
Proof.
  apply (update_duckdns_discovers_first sample.plain_thread);
    [reflexivity|by left].
Defined.

(** X7. A discovery that finds nothing does not fail the attempt: when
    every echo service raises and the provider answers 200 with a body
    that starts with the line OK, the request went out without an ip
    parameter and the result is a success. *)
Theorem update_duckdns_survives_discovery self E st body :
  update_ipv4 self = true →
  ipv4 self = None →
  (∀ s, s ∈ ip_utils.ipv4_services →
        ∃ e, http E (echo_request s) = Fault e) →
  (∀ rq, url rq = update_url → http E rq = Response 200 body) →
  Py.split_lines (Py.strip body) !! 0%nat = Some "OK" →
  ∃ res rq,
    value (update_duckdns self E st) = Ret res ∧
    UpdateResult.success res = true ∧
    exchanges_with update_url (events (update_duckdns self E st))
      = [(rq, Response 200 body)] ∧
    params rq !! "ip" = None.
Proof.
  intros Hon Hno Hfail Hprov Hok.
  destruct (update_duckdns_value self E st) as (res & Hv & _ & Hr).
  destruct (update_duckdns_run self E st)
    as (p & _ & Hp & _ & _ & _ & Hx & _).
  rewrite ip_settings_value in Hp. injection Hp as <-.
  fold (update_request self E) in Hx.
  rewrite (Hprov (update_request self E) eq_refl) in Hr, Hx.
  exists res, (update_request self E). split; [done|].
  cbn in Hr. destruct Hr as (_ & Hgood & _).
  split; [by apply Hgood|]. split; [done|].
  cbn [params update_request]. unfold sent_params.
  rewrite Hon, Hno, (first_answer_all_fault _ _ Hfail).
  by rewrite !with_param_lookup.
Qed.

Lemma update_duckdns_survives_discovery_witness :
  ∃ res rq,
    value (update_duckdns sample.plain_thread
             (sample.provider_says (Response 200 "OK"))
             sample.empty_store) = Ret res ∧
    UpdateResult.success res = true ∧
    exchanges_with update_url
      (events (update_duckdns sample.plain_thread
                 (sample.provider_says (Response 200 "OK"))
                 sample.empty_store))
      = [(rq, Response 200 "OK")] ∧
    params rq !! "ip" = None.
Proof.
  apply (update_duckdns_survives_discovery sample.plain_thread
           (sample.provider_says (Response 200 "OK")) sample.empty_store "OK");
    try reflexivity.
  - intros s Hs. exists "timed out".
    repeat (apply elem_of_cons in Hs as [->|Hs]; [reflexivity|]).
    by apply elem_of_nil in Hs.
  - intros rq Hrq. cbn. by rewrite Hrq.
Defined.


(** X9. Of the outcomes of the provider call only a network fault is
    logged: it adds one error record with the fault's text to what
    discovery logged, if discovery ran. An answer from the provider adds
    no log record, whatever its status or body. *)
Theorem update_duckdns_logs_faults_only self E st :
  ∃ rq,
    exchanges_with update_url (events (update_duckdns self E st))
      = [(rq, http E rq)] ∧
    ∀ lv,
      logged lv (events (update_duckdns self E st)) =
      (if update_ipv4 self then
         match Py.if_truthy (ipv4 self) with
         | Some _ => []
         | None => logged lv (events (ip_utils.get_ipv4 E st))
         end
       else []) ++
      match http E rq, lv with
      | Fault e, ERROR => ["Network error: " +:+ e]
      | _, _ => []
      end.
Proof.
  destruct (update_duckdns_run self E st)
    as (p & _ & Hp & _ & _ & _ & Hx & _).
  rewrite ip_settings_value in Hp. injection Hp as <-.
  exists (update_request self E). split; [done|]. intros lv.
  rewrite update_duckdns_events, logged_app. f_equal.
  - destruct (update_ipv4 self); [|done].
    by destruct (Py.if_truthy (ipv4 self)).
  - autorewrite with obs.
    destruct (http E _) as [e|c b]; autorewrite with obs; by destruct lv.
Qed.

End engine_more.

(** ** The settings store: further properties *)

Section store_more.
Import config_manager.

Lemma slice_last_short {A} k (l : list A) :
  Py.len l ≤ k → Py.slice_last k l = l.
Proof.
  intros Hk. unfold Py.slice_last.
  replace (Z.to_nat (Py.len l - k)) with 0%nat by lia. done.
Qed.

(** What [save_history] writes, in one form for short and long lists. *)
Lemma saved_slice {A} (l : list A) :
  (if 1000 <? Py.len l then Py.slice_last 1000 l else l)
  = Py.slice_last 1000 l.
Proof.
  destruct (Z.ltb_spec 1000 (Py.len l)); [done|].
  by rewrite slice_last_short.
Qed.

Lemma save_config_run self config E st :
  save_config self config E st =
  match write_fault E (config_file self) with
  | None =>
      Ran [Log logger INFO "Configuration saved successfully"]
          (Store (<[config_file self := Doc config]> (fs st)) (heap st))
          (Ret true)
  | Some (e, rest) =>
      Ran [Log logger ERROR ("Error saving configuration: " +:+ e)]
          (Store (match rest with
                  | Some f => <[config_file self := f]> (fs st)
                  | None => delete (config_file self) (fs st)
                  end) (heap st))
          (Ret false)
  end.
Proof.
  unfold save_config, json_dump. m_unfold. cbn [events final value].
  by destruct (write_fault E _) as [[e [f|]]|].
Qed.

Lemma load_history_run self E st :
  load_history self E st =
  match fs st !! history_file self with
  | None => Ran [Log logger INFO "No history file found"] st (Ret (JArr []))
  | Some (Garbage e) =>
      Ran [Log logger ERROR ("Error loading history: " +:+ e)] st
          (Ret (JArr []))
  | Some (Doc d) =>
      let loaded n :=
        Ran [Log logger INFO
               ("Loaded " +:+ Py.str n +:+ " history entries")] st (Ret d) in
      match d with
      | JArr l => loaded (Py.len l)
      | JObj m => loaded (Z.of_nat (size m))
      | JStr s => loaded (Z.of_nat (String.length s))
      | _ =>
          Ran [Log logger ERROR "Error loading history: object has no len()"]
              st (Ret (JArr []))
      end
  end.
Proof.
  unfold load_history, path_exists, json_load, json_len. m_unfold.
  cbn [events final value].
  destruct (fs st !! history_file self) as [[d|e]|] eqn:Hf;
    cbn [events final value].
  - rewrite bool_decide_true by eauto. cbn [events final value].
    rewrite Hf. by destruct d.
  - rewrite bool_decide_true by eauto. cbn [events final value].
    by rewrite Hf.
  - rewrite bool_decide_false by (by intros [? ?]). done.
Qed.

(** X10. A settings document that is saved without a write fault is read
    back unchanged by the next load, whatever the document is. *)
Theorem save_config_load_config self config E E' st :
  write_fault E (config_file self) = None →
  value (save_config self config E st) = Ret true ∧
  value (load_config self E' (final (save_config self config E st)))
    = Ret config.
Proof.
  intros Hw. rewrite save_config_run, Hw. cbn [value final].
  split; [done|]. rewrite load_config_run. cbn [fs].
  by rewrite lookup_insert_eq.
Qed.

Lemma save_config_load_config_witness :
  value (save_config sample.manager sample.partial_doc sample.offline
           sample.corrupt_store) = Ret true ∧
  value (load_config sample.manager sample.refusing
           (final (save_config sample.manager sample.partial_doc
                     sample.offline sample.corrupt_store)))
    = Ret sample.partial_doc.
Proof.
  apply (save_config_load_config sample.manager sample.partial_doc
           sample.offline sample.refusing sample.corrupt_store).
  reflexivity.
Defined.

(** X11. [save_config] never raises. It returns True exactly when the write
    went through, and False with one error record otherwise; either way no
    file other than the settings file is touched and the heap is as it
    was. *)
Theorem save_config_outcome self config E st :
  ∃ b,
    value (save_config self config E st) = Ret b ∧
    (b = true ↔ write_fault E (config_file self) = None) ∧
    (b = false →
       ∃ e, logged ERROR (events (save_config self config E st))
            = ["Error saving configuration: " +:+ e]) ∧
    (∀ p, p ≠ config_file self →
          fs (final (save_config self config E st)) !! p = fs st !! p) ∧
    heap (final (save_config self config E st)) = heap st.
Proof.
  rewrite save_config_run.
  destruct (write_fault E (config_file self)) as [[e rest]|];
    cbn [events final value fs heap]; eexists; (split; [done|]).
  - split; [done|]. split; [by exists e|]. split; [|done].
    intros p Hp. destruct rest.
    + by rewrite lookup_insert_ne.
    + by rewrite lookup_delete_ne.
  - split; [done|]. split; [done|]. split; [|done].
    intros p Hp. by rewrite lookup_insert_ne.
Qed.

(** X12. [save_history] on a list never raises. It returns True exactly when
    the write went through, and False with one error record otherwise;
    either way no file other than the history file is touched, so the
    settings file is safe when the two paths differ. *)
Theorem save_history_outcome self h E st l :
  heap st !! h = Some l →
  ∃ b,
    value (save_history self h E st) = Ret b ∧
    (b = true ↔ write_fault E (history_file self) = None) ∧
    (b = false →
       ∃ e, logged ERROR (events (save_history self h E st))
            = ["Error saving history: " +:+ e]) ∧
    (∀ p, p ≠ history_file self →
          fs (final (save_history self h E st)) !! p = fs st !! p).
Proof.
  intros Hl. rewrite (save_history_run _ _ _ _ _ Hl).
  destruct (write_fault E (history_file self)) as [[e rest]|];
    cbn [events final value fs heap]; eexists; (split; [done|]).
  - split; [done|]. split; [by exists e|].
    intros p Hp. destruct rest.
    + by rewrite lookup_insert_ne.
    + by rewrite lookup_delete_ne.
  - split; [done|]. split; [done|].
    intros p Hp. by rewrite lookup_insert_ne.
Qed.

Lemma save_history_outcome_witness :
  ∃ b,
    value (save_history sample.manager 0 sample.offline sample.history_store)
      = Ret b ∧
    (b = true ↔ write_fault sample.offline (history_file sample.manager)
                = None) ∧
    (b = false →
       ∃ e, logged ERROR (events (save_history sample.manager 0
                                    sample.offline sample.history_store))
            = ["Error saving history: " +:+ e]) ∧
    (∀ p, p ≠ history_file sample.manager →
          fs (final (save_history sample.manager 0 sample.offline
                       sample.history_store)) !! p
          = fs sample.history_store !! p).
Proof.
  apply (save_history_outcome sample.manager 0 sample.offline
           sample.history_store sample.long_history).
  reflexivity.
Defined.

(** X13. When the history file is missing or cannot be parsed,
    [load_history] returns the empty list, does not raise and changes
    nothing; a missing file is an info record, an unparsable one an error
    record with the cause. *)
Theorem load_history_empty self E st :
  (fs st !! history_file self = None ∨
   ∃ e, fs st !! history_file self = Some (Garbage e)) →
  value (load_history self E st) = Ret (JArr []) ∧
  final (load_history self E st) = st ∧
  (fs st !! history_file self = None →
     events (load_history self E st)
       = [Log logger INFO "No history file found"]) ∧
  (∀ e, fs st !! history_file self = Some (Garbage e) →
     events (load_history self E st)
       = [Log logger ERROR ("Error loading history: " +:+ e)]).
Proof.
  intros Hf. rewrite load_history_run.
  destruct Hf as [Hf|[e Hf]]; rewrite Hf; cbn [events final value];
    repeat apply conj; try done.
  by intros e' [= <-].
Qed.

Lemma load_history_empty_witness :
  value (load_history sample.manager sample.offline sample.empty_store)
    = Ret (JArr []) ∧
  final (load_history sample.manager sample.offline sample.empty_store)
    = sample.empty_store ∧
  (fs sample.empty_store !! history_file sample.manager = None →
     events (load_history sample.manager sample.offline sample.empty_store)
       = [Log logger INFO "No history file found"]) ∧
  (∀ e, fs sample.empty_store !! history_file sample.manager
          = Some (Garbage e) →
     events (load_history sample.manager sample.offline sample.empty_store)
       = [Log logger ERROR ("Error loading history: " +:+ e)]).
Proof.
  apply (load_history_empty sample.manager sample.offline
           sample.empty_store).
  left. reflexivity.
Defined.

(** X14. A history file that parses is not checked to hold a list. A list is
    returned with its length logged; null, a boolean or a number has no
    length, which is logged as an error and gives the empty list; an
    object or a string has a length and is returned as it is. *)
Theorem load_history_any_document self E st d :
  fs st !! history_file self = Some (Doc d) →
  (∀ l, d = JArr l →
        load_history self E st =
        Ran [Log logger INFO
               ("Loaded " +:+ Py.str (Py.len l) +:+ " history entries")]
            st (Ret (JArr l))) ∧
  (d = JNull ∨ (∃ b, d = JBool b) ∨ (∃ n, d = JInt n) →
        ∃ e, load_history self E st =
             Ran [Log logger ERROR ("Error loading history: " +:+ e)]
                 st (Ret (JArr []))) ∧
  ((∃ m, d = JObj m) ∨ (∃ s, d = JStr s) →
        value (load_history self E st) = Ret d).
Proof.
  intros Hf. rewrite load_history_run, Hf. repeat apply conj.
  - by intros l ->.
  - intros [->|[[b ->]|[n ->]]]; by eexists.
  - by intros [[m ->]|[s ->]].
Qed.

Lemma load_history_any_document_witness :
  (∀ l, sample.partial_doc = JArr l →
        load_history sample.manager sample.offline sample.object_history =
        Ran [Log logger INFO
               ("Loaded " +:+ Py.str (Py.len l) +:+ " history entries")]
            sample.object_history (Ret (JArr l))) ∧
  (sample.partial_doc = JNull ∨ (∃ b, sample.partial_doc = JBool b) ∨
   (∃ n, sample.partial_doc = JInt n) →
        ∃ e, load_history sample.manager sample.offline
               sample.object_history =
             Ran [Log logger ERROR ("Error loading history: " +:+ e)]
                 sample.object_history (Ret (JArr []))) ∧
  ((∃ m, sample.partial_doc = JObj m) ∨ (∃ s, sample.partial_doc = JStr s) →
        value (load_history sample.manager sample.offline
                 sample.object_history) = Ret sample.partial_doc).
Proof.
  apply (load_history_any_document sample.manager sample.offline
           sample.object_history sample.partial_doc).
  reflexivity.
Defined.

(** X15. A history that is saved without a write fault is read back by the
    next load as its last 1000 entries (all of them when there are no more
    than 1000), and the load logs that number of entries. *)
Theorem save_history_load_history self h E E' st l :
  heap st !! h = Some l →
  write_fault E (history_file self) = None →
  load_history self E' (final (save_history self h E st)) =
  Ran [Log logger INFO
         ("Loaded " +:+ Py.str (Py.len l `min` 1000) +:+ " history entries")]
      (final (save_history self h E st))
      (Ret (JArr (Py.slice_last 1000 l))).
Proof.
  intros Hl Hw. rewrite load_history_run.
  rewrite (save_history_run _ _ _ _ _ Hl), Hw. cbn [final fs].
  rewrite lookup_insert_eq, saved_slice. cbn zeta.
  assert (Py.len (Py.slice_last 1000 l) = Py.len l `min` 1000) as ->; [|done].
  unfold Py.len at 1. rewrite slice_last_length. unfold Py.len. lia.
Qed.

Lemma save_history_load_history_witness :
  load_history sample.manager sample.refusing
    (final (save_history sample.manager 0 sample.offline
              sample.history_store)) =
  Ran [Log logger INFO
         ("Loaded " +:+ Py.str (Py.len sample.long_history `min` 1000)
          +:+ " history entries")]
      (final (save_history sample.manager 0 sample.offline
                sample.history_store))
      (Ret (JArr (Py.slice_last 1000 sample.long_history))).
Proof.
  apply (save_history_load_history sample.manager 0 sample.offline
           sample.refusing sample.history_store sample.long_history);
    reflexivity.
Defined.

End store_more.

(** ** The main window: properties of the parts that decide *)

Section window_more.
Import config_manager main_window.

Lemma update_dns_run m E st :
  update_dns (JObj m) E st =
  Ran [] st
    (Ret (if negb (truthy (default (JStr "") (m !! "domains")))
             || negb (truthy (default (JStr "") (m !! "token")))
          then ConfigurationMissing
          else UpdateStarted
                 (ThreadArgs
                    (default (JStr "") (m !! "domains"))
                    (default (JStr "") (m !! "token"))
                    (default (JBool true) (m !! "update_ipv4"))
                    (default (JBool false) (m !! "update_ipv6"))
                    (if truthy (default (JBool false) (m !! "use_custom_ipv4"))
                        && truthy (default (JStr "") (m !! "custom_ipv4"))
                     then default (JStr "") (m !! "custom_ipv4") else JNull)
                    (if truthy (default (JBool false) (m !! "update_ipv6"))
                        && truthy (default (JStr "") (m !! "custom_ipv6"))
                     then default (JStr "") (m !! "custom_ipv6")
                     else JNull)))).
Proof.
  unfold update_dns, get. m_unfold. cbn [events final value].
  by destruct (negb _ || negb _).
Qed.

(** X16. [update_dns] on a settings dict never raises, sends no request and
    logs nothing. It stops at the "Configuration Missing" warning exactly
    when domains or token is absent or has a false value such as the empty
    string; otherwise it starts one thread with the domains and token of
    the dict. On settings that are not a dict it raises. *)
Theorem update_dns_needs_credentials config E st :
  (∀ m, config = JObj m →
     events (update_dns config E st) = [] ∧
     final (update_dns config E st) = st ∧
     (value (update_dns config E st) = Ret ConfigurationMissing ↔
        truthy (default (JStr "") (m !! "domains")) = false ∨
        truthy (default (JStr "") (m !! "token")) = false) ∧
     (truthy (default (JStr "") (m !! "domains")) = true →
      truthy (default (JStr "") (m !! "token")) = true →
      ∃ a, value (update_dns config E st) = Ret (UpdateStarted a) ∧
           m !! "domains" = Some (arg_domains a) ∧
           m !! "token" = Some (arg_token a))) ∧
  ((∀ m, config ≠ JObj m) → ∃ e, value (update_dns config E st) = Raise e).
Proof.
  split.
  - intros m ->. rewrite update_dns_run. cbn [events final value].
    split; [done|]. split; [done|].
    destruct (truthy (default (JStr "") (m !! "domains"))) eqn:HD,
             (truthy (default (JStr "") (m !! "token"))) eqn:HT;
      cbn [negb orb].
    + split; [split; [done|by intros [|]]|]. intros _ _.
      eexists. split; [done|]. cbn [arg_domains arg_token].
      destruct (m !! "domains"); [|done]. by destruct (m !! "token").
    + split; [|done]. split; [by right|done].
    + split; [|done]. split; [by left|done].
    + split; [|done]. split; [by left|done].
  - intros Hno. destruct config; try by eexists. by destruct (Hno m).
Qed.

(** X17. Keys the settings dict lacks are read with their defaults: without
    update_ipv4 the IPv4 update is on, without update_ipv6 the IPv6 update
    is off, and a stored custom address is not passed on when the key that
    switches it on (use_custom_ipv4, update_ipv6) is absent. *)
Theorem update_dns_missing_keys m E st a :
  value (update_dns (JObj m) E st) = Ret (UpdateStarted a) →
  (m !! "update_ipv4" = None → arg_update_ipv4 a = JBool true) ∧
  (m !! "update_ipv6" = None →
     arg_update_ipv6 a = JBool false ∧ arg_ipv6 a = JNull) ∧
  (m !! "use_custom_ipv4" = None ∨ m !! "custom_ipv4" = None →
     arg_ipv4 a = JNull) ∧
  (m !! "custom_ipv6" = None → arg_ipv6 a = JNull).
Proof.
  rewrite update_dns_run. cbn [value].
  destruct (negb _ || negb _); [done|]. intros [= <-].
  cbn [arg_update_ipv4 arg_update_ipv6 arg_ipv4 arg_ipv6].
  repeat apply conj.
  - by intros ->.
  - by intros ->.
  - intros [->| ->]; cbn [default truthy Py.truthy andb]; [done|].
    by rewrite andb_false_r.
  - intros ->. cbn [default truthy Py.truthy]. by rewrite andb_false_r.
Qed.

Lemma update_dns_missing_keys_witness :
  ((list_to_map [ ("domains", JStr "myhost"); ("token", JStr "secret") ]
      : gmap string json) !! "update_ipv4" = None →
   arg_update_ipv4
     (ThreadArgs (JStr "myhost") (JStr "secret") (JBool true) (JBool false)
        JNull JNull) = JBool true) ∧
  ((list_to_map [ ("domains", JStr "myhost"); ("token", JStr "secret") ]
      : gmap string json) !! "update_ipv6" = None →
   arg_update_ipv6
     (ThreadArgs (JStr "myhost") (JStr "secret") (JBool true) (JBool false)
        JNull JNull) = JBool false ∧
   arg_ipv6
     (ThreadArgs (JStr "myhost") (JStr "secret") (JBool true) (JBool false)
        JNull JNull) = JNull) ∧
  ((list_to_map [ ("domains", JStr "myhost"); ("token", JStr "secret") ]
      : gmap string json) !! "use_custom_ipv4" = None ∨
   (list_to_map [ ("domains", JStr "myhost"); ("token", JStr "secret") ]
      : gmap string json) !! "custom_ipv4" = None →
   arg_ipv4
     (ThreadArgs (JStr "myhost") (JStr "secret") (JBool true) (JBool false)
        JNull JNull) = JNull) ∧
  ((list_to_map [ ("domains", JStr "myhost"); ("token", JStr "secret") ]
      : gmap string json) !! "custom_ipv6" = None →
   arg_ipv6
     (ThreadArgs (JStr "myhost") (JStr "secret") (JBool true) (JBool false)
        JNull JNull) = JNull).
Proof.
  apply (update_dns_missing_keys _ sample.offline sample.empty_store).
  vm_compute. reflexivity.
Defined.

(** The keys [update_dns] reads, looked up in a dict with the eleven
    settings. *)
Lemma settings_lookup (d t u4 c4s c4 u6 c6 au ui mt sm : json) :
  let m : gmap string json :=
    list_to_map
      [ ("domains", d); ("token", t); ("update_ipv4", u4);
        ("use_custom_ipv4", c4s); ("custom_ipv4", c4);
        ("update_ipv6", u6); ("custom_ipv6", c6); ("auto_update", au);
        ("update_interval", ui); ("minimize_to_tray", mt);
        ("start_minimized", sm) ] in
  m !! "domains" = Some d ∧ m !! "token" = Some t ∧
  m !! "update_ipv4" = Some u4 ∧ m !! "use_custom_ipv4" = Some c4s ∧
  m !! "custom_ipv4" = Some c4 ∧ m !! "update_ipv6" = Some u6 ∧
  m !! "custom_ipv6" = Some c6.
Proof. vm_compute. repeat split. Qed.

(** [update_dns] on the settings the configuration tab saves. *)
Lemma update_dns_widgets_run w E st :
  ∃ a,
    update_dns (config_of_widgets w) E st =
    Ran [] st
      (Ret (if negb (Py.truthy (Py.strip (domains_input w)))
               || negb (Py.truthy (Py.strip (token_input w)))
            then ConfigurationMissing else UpdateStarted a)) ∧
    thread_of a = Some
      {| duck_dns_updater.domains := Py.strip (domains_input w);
         duck_dns_updater.token := Py.strip (token_input w);
         duck_dns_updater.update_ipv4 := update_ipv4_check w;
         duck_dns_updater.update_ipv6 := update_ipv6_check w;
         duck_dns_updater.ipv4 :=
           if use_custom_ipv4_check w
           then Py.if_truthy (Some (Py.strip (custom_ipv4_input w)))
           else None;
         duck_dns_updater.ipv6 :=
           if update_ipv6_check w
           then Py.if_truthy (Some (Py.strip (custom_ipv6_input w)))
           else None |}.
Proof.
  unfold config_of_widgets. rewrite update_dns_run.
  generalize (Py.strip (domains_input w)) (Py.strip (token_input w))
    (Py.strip (custom_ipv4_input w)) (Py.strip (custom_ipv6_input w)).
  intros d t c4 c6.
  destruct (settings_lookup (JStr d) (JStr t)
              (JBool (update_ipv4_check w))
              (JBool (use_custom_ipv4_check w)) (JStr c4)
              (JBool (update_ipv6_check w)) (JStr c6)
              (JBool (auto_update_check w))
              (JInt (update_interval_input w))
              (JBool (minimize_to_tray_check w))
              (JBool (start_minimized_check w)))
    as (-> & -> & -> & -> & -> & -> & ->).
  cbn. eexists. split; [done|].
  by destruct (use_custom_ipv4_check w), (update_ipv6_check w),
    (Py.truthy c4), (Py.truthy c6).
Qed.

(** X18. For the settings the configuration tab saves, [update_dns] warns
    and starts nothing when the domains or the token field is blank, and
    otherwise starts a thread with the trimmed domains and token, the two
    update switches, the trimmed custom IPv4 as override only when "use
    custom IPv4" is ticked and the field is not blank, and the trimmed
    custom IPv6 as override only when the IPv6 update is ticked and the
    field is not blank. *)
Theorem update_dns_of_widgets w E st :
  (Py.strip (domains_input w) = "" ∨ Py.strip (token_input w) = "" →
     value (update_dns (config_of_widgets w) E st)
       = Ret ConfigurationMissing) ∧
  (Py.strip (domains_input w) ≠ "" → Py.strip (token_input w) ≠ "" →
     ∃ a,
       value (update_dns (config_of_widgets w) E st) = Ret (UpdateStarted a) ∧
       thread_of a = Some
         {| duck_dns_updater.domains := Py.strip (domains_input w);
            duck_dns_updater.token := Py.strip (token_input w);
            duck_dns_updater.update_ipv4 := update_ipv4_check w;
            duck_dns_updater.update_ipv6 := update_ipv6_check w;
            duck_dns_updater.ipv4 :=
              if use_custom_ipv4_check w
              then Py.if_truthy (Some (Py.strip (custom_ipv4_input w)))
              else None;
            duck_dns_updater.ipv6 :=
              if update_ipv6_check w
              then Py.if_truthy (Some (Py.strip (custom_ipv6_input w)))
              else None |}).
Proof.
  destruct (update_dns_widgets_run w E st) as (a & -> & Ha).
  cbn [value]. split.
  - intros [->| ->]; cbn [Py.truthy negb orb]; [done|].
    by rewrite orb_true_r.
  - intros Hd%truthy_ne Ht%truthy_ne. rewrite Hd, Ht. cbn [negb orb].
    by exists a.
Qed.

(** X19. From the configuration tab to the provider: for the thread that
    [update_dns] starts on the saved settings, the request carries the
    trimmed domains and token; its ip is the custom IPv4 only when both
    IPv4 boxes are ticked and the field is not blank, else the discovered
    address when the IPv4 update is ticked, else absent; its ipv6 is the
    custom IPv6 exactly when the IPv6 update is ticked and the field is
    not blank. *)
Theorem widgets_reach_provider w E st a self :
  value (update_dns (config_of_widgets w) E st) = Ret (UpdateStarted a) →
  thread_of a = Some self →
  ∃ rq,
    exchanges_with duck_dns_updater.update_url
      (events (duck_dns_updater.update_duckdns self E st))
      = [(rq, http E rq)] ∧
    params rq !! "domains" = Some (Py.strip (domains_input w)) ∧
    params rq !! "token" = Some (Py.strip (token_input w)) ∧
    params rq !! "ip" =
      (if update_ipv4_check w then
         if use_custom_ipv4_check w
            && Py.truthy (Py.strip (custom_ipv4_input w))
         then Some (Py.strip (custom_ipv4_input w))
         else Py.if_truthy (first_answer E ip_utils.ipv4_services)
       else None) ∧
    params rq !! "ipv6" =
      (if update_ipv6_check w && Py.truthy (Py.strip (custom_ipv6_input w))
       then Some (Py.strip (custom_ipv6_input w)) else None).
Proof.
  destruct (update_dns_widgets_run w E st) as (a' & -> & Ha).
  cbn [value]. destruct (negb _ || negb _); [done|].
  intros [= <-]. rewrite Ha. intros [= <-].
  destruct (update_duckdns_run
              {| duck_dns_updater.domains := Py.strip (domains_input w);
                 duck_dns_updater.token := Py.strip (token_input w);
                 duck_dns_updater.update_ipv4 := update_ipv4_check w;
                 duck_dns_updater.update_ipv6 := update_ipv6_check w;
                 duck_dns_updater.ipv4 :=
                   if use_custom_ipv4_check w
                   then Py.if_truthy (Some (Py.strip (custom_ipv4_input w)))
                   else None;
                 duck_dns_updater.ipv6 :=
                   if update_ipv6_check w
                   then Py.if_truthy (Some (Py.strip (custom_ipv6_input w)))
                   else None |} E st)
    as (p & _ & Hp & _ & _ & _ & Hx & _).
  rewrite ip_settings_value in Hp. injection Hp as <-.
  eexists. split; [exact Hx|]. cbn [params]. unfold sent_params.
  rewrite !with_param_lookup.
  cbn [duck_dns_updater.domains duck_dns_updater.token
       duck_dns_updater.update_ipv4 duck_dns_updater.update_ipv6
       duck_dns_updater.ipv4 duck_dns_updater.ipv6].
  generalize (Py.strip (domains_input w)) (Py.strip (token_input w))
    (Py.strip (custom_ipv4_input w)) (Py.strip (custom_ipv6_input w))
    (Py.if_truthy (first_answer E ip_utils.ipv4_services)).
  intros d t c4 c6 found. cbn.
  repeat apply conj; try done.
  - destruct (update_ipv6_check w), (update_ipv4_check w),
      (use_custom_ipv4_check w), c4, c6; cbn; try done;
      by destruct found.
  - by destruct (update_ipv6_check w), c6.
Qed.

Lemma widgets_reach_provider_witness :
  ∃ rq,
    exchanges_with duck_dns_updater.update_url
      (events (duck_dns_updater.update_duckdns sample.tab_thread
                 sample.offline sample.empty_store))
      = [(rq, http sample.offline rq)] ∧
    params rq !! "domains"
      = Some (Py.strip (domains_input sample.tab)) ∧
    params rq !! "token" = Some (Py.strip (token_input sample.tab)) ∧
    params rq !! "ip" =
      (if update_ipv4_check sample.tab then
         if use_custom_ipv4_check sample.tab
            && Py.truthy (Py.strip (custom_ipv4_input sample.tab))
         then Some (Py.strip (custom_ipv4_input sample.tab))
         else Py.if_truthy (first_answer sample.offline ip_utils.ipv4_services)
       else None) ∧
    params rq !! "ipv6" =
      (if update_ipv6_check sample.tab
          && Py.truthy (Py.strip (custom_ipv6_input sample.tab))
       then Some (Py.strip (custom_ipv6_input sample.tab)) else None).
Proof.
  apply (widgets_reach_provider sample.tab sample.offline sample.empty_store
           sample.tab_args sample.tab_thread);
    vm_compute; reflexivity.
Defined.

(** One call of the slot on a history list. *)
Lemma on_update_complete_run cm h x E st l :
  heap st !! h = Some l →
  ∃ evs heap',
    on_update_complete cm h x E st =
    Ran evs
        (Store (match write_fault E (history_file cm) with
                | None =>
                    <[history_file cm
                      := Doc (JArr (Py.slice_last 1000 (l ++ [x])))]> (fs st)
                | Some (_, Some f) => <[history_file cm := f]> (fs st)
                | Some (_, None) => delete (history_file cm) (fs st)
                end) heap')
        (Ret ()) ∧
    heap' !! h = Some (l ++ [x]) ∧
    (∀ k lk, k ≠ h → heap st !! k = Some lk → heap' !! k = Some lk).
Proof.
  intros Hl. unfold on_update_complete, append.
  assert (heap (Store (fs st) (<[h := l ++ [x]]> (heap st))) !! h
          = Some (l ++ [x])) as Hl'.
  { cbn [heap]. apply list_lookup_insert_eq. by eapply lookup_lt_Some. }
  m_unfold. cbn [events final value]. rewrite Hl.
  cbn [events final value].
  rewrite (save_history_run _ _ _ _ _ Hl'). rewrite saved_slice.
  cbn [fs heap].
  destruct (write_fault E (history_file cm)) as [[e [f|]]|];
    cbn [events final value]; eexists; eexists; (split; [done|]);
    (split;
     [destruct (1000 <? Py.len (l ++ [x]));
        [apply lookup_app_l_Some|]; by apply list_lookup_insert_eq,
          (lookup_lt_Some _ _ _ Hl)
     |intros k lk Hk Hlk;
      destruct (1000 <? Py.len (l ++ [x]));
        [apply lookup_app_l_Some|]; by rewrite list_lookup_insert_ne]).
Qed.





(** X22. [clear_history]: on No nothing happens. On Yes the window gets a
    new, empty list; the list it held before is not emptied, only
    dropped; and when the write goes through the history file holds the
    empty list. Neither answer makes it raise. *)
Theorem clear_history_outcome cm h E st :
  clear_history cm h false E st = Ran [] st (Ret h) ∧
  ∃ evs st',
    clear_history cm h true E st = Ran evs st' (Ret (length (heap st))) ∧
    heap st' !! length (heap st) = Some [] ∧
    (∀ k lk, heap st !! k = Some lk → heap st' !! k = Some lk) ∧
    (write_fault E (history_file cm) = None →
       fs st' !! history_file cm = Some (Doc (JArr []))).
Proof.
  split; [done|]. unfold clear_history, alloc. m_unfold.
  cbn [events final value].
  assert (heap (Store (fs st) (heap st ++ [[]])) !! length (heap st)
          = Some []) as Hnew.
  { cbn [heap]. by apply list_lookup_middle. }
  rewrite (save_history_run _ _ _ _ _ Hnew). rewrite saved_slice.
  assert ((1000 <? Py.len (@nil json)) = false) as -> by done.
  cbn [fs heap].
  destruct (write_fault E (history_file cm)) as [[e [f|]]|];
    cbn [events final value]; eexists; eexists; (split; [done|]);
    cbn [heap fs]; (split; [by apply list_lookup_middle|]);
    (split; [intros k lk Hk; by apply lookup_app_l_Some|]); try done.
  intros _. by rewrite lookup_insert_eq.
Qed.

(** [run] laid out: the events of the attempt, then the signal. *)
Lemma run_run self E st :
  ∃ res,
    duck_dns_updater.update_duckdns self E st =
      Ran (events (duck_dns_updater.update_duckdns self E st)) st (Ret res) ∧
    duck_dns_updater.run self E st =
      Ran (events (duck_dns_updater.update_duckdns self E st) ++ [Emit res])
          st (Ret ()).
Proof.
  destruct (update_duckdns_value self E st) as (res & Hv & Hf & _).
  exists res.
  assert (duck_dns_updater.update_duckdns self E st =
          Ran (events (duck_dns_updater.update_duckdns self E st)) st
              (Ret res)) as Hu.
  { destruct (duck_dns_updater.update_duckdns self E st) as [evs st' v].
    cbn [events final value] in *. by subst. }
  split; [done|]. unfold duck_dns_updater.run, try_except.
  by rewrite (bind_run _ _ _ _ _ _ _ Hu).
Qed.

(** X23. One attempt, one history entry: whatever the outcome, [run] sends
    one result through the signal, and the slot called with it adds that
    result's dict, and nothing else, at the end of the history list. *)
Theorem attempt_recorded self cm h E st l :
  heap st !! h = Some l →
  ∃ res,
    value (duck_dns_updater.update_duckdns self E st) = Ret res ∧
    emitted (events (duck_dns_updater.run self E st)) = [res] ∧
    heap (final (deliver cm h
                   (result_dict <$>
                      emitted (events (duck_dns_updater.run self E st)))
                   E (final (duck_dns_updater.run self E st)))) !! h
      = Some (l ++ [result_dict res]).
Proof.
  intros Hl. destruct (run_run self E st) as (res & Hu & Hr).
  exists res. rewrite Hr. cbn [events final].
  rewrite emitted_app, (update_duckdns_quiet self E st).
  cbn [app emitted omap list_omap fmap list_fmap].
  split; [by rewrite Hu|]. split; [done|].
  destruct (on_update_complete_run cm h (result_dict res) E st l Hl)
    as (evs & heap' & Hrun & Hh & _).
  cbn [deliver]. rewrite (bind_run _ _ _ _ _ _ _ Hrun). by cbn.
Qed.

Lemma attempt_recorded_witness :
  ∃ res,
    value (duck_dns_updater.update_duckdns sample.thread sample.offline
             sample.history_store) = Ret res ∧
    emitted (events (duck_dns_updater.run sample.thread sample.offline
                       sample.history_store)) = [res] ∧
    heap (final (deliver sample.manager 0
                   (result_dict <$>
                      emitted (events (duck_dns_updater.run sample.thread
                                         sample.offline
                                         sample.history_store)))
                   sample.offline
                   (final (duck_dns_updater.run sample.thread sample.offline
                             sample.history_store)))) !! 0%nat
      = Some (sample.long_history ++ [result_dict res]).
Proof.
  apply (attempt_recorded sample.thread sample.manager 0 sample.offline
           sample.history_store sample.long_history).
  reflexivity.
Defined.

End window_more.
